(** * Nutrition arithmetic of [core/ingredient.py]

    A shallow embedding of the ingredient resolver ([Ingredient]) and of the
    two aggregation functions ([calculate_total_nutrition],
    [calculate_serving_nutrition]).

    - Python's [float] is IEEE 754 binary64: it is modelled by Rocq's
      primitive [float], whose operations are specified by [SpecFloat]. The
      conversions that Python does with correct rounding ([float(Decimal)],
      [float(int)], [int / int], [round(x, 2)]) are written out on integers
      in [Float64].
    - Python exceptions are modelled by the error monad [result].
    - Python dictionaries are finite maps ([gmap]) keyed by strings.
    - The collaborators that live outside [core/ingredient.py]
      ([search.parse_ingredient], [search.match_one_food],
      [search.match_one_weight] and the table [utils.unit_to_grams]) are
      section variables; the scenarios of the specification instantiate them. *)

From Stdlib Require Import ZArith Floats Lia.
From stdpp Require Import gmap strings list fin_maps.

(** ** Django records read by the resolver *)

(** A [decimal.Decimal] as stored by a [DecimalField]: [coeff * 10 ^ (- places)]. *)
Record Decimal := mkDecimal { coeff : Z; places : N }.

(** [FoodWeight] (migration 0002): "[amount] [desc] weigh [weight] grams". *)
Module FoodWeight.
Record t := mk {
  seq : Z;
  amount : Decimal;
  desc : string;
  weight : Decimal;
  data_points : option Z;
  deviation : option Decimal
}.
End FoodWeight.

(** [FoodNutrition]: the amount of the nutrient [tagname] in 100 g of food. *)
Module FoodNutrition.
Record t := mk { tagname : string; value : Decimal }.
End FoodNutrition.

(** [Food] with its two related managers, [weight] and [nutrition]. *)
Module Food.
Record t := mk {
  desc_long : string;
  weight : list FoodWeight.t;
  nutrition : list FoodNutrition.t
}.
End Food.

(** ** The table of [FoodWeight] (migration 0002) *)

Module Migration_0002_foodweight.






End Migration_0002_foodweight.

(** ** Exceptions *)

(** The first argument of [IngredientError] is a string in [__init__] and a
    [Food] object in [get_weight]. *)
Inductive pyobj :=
  | PyStr (s : string)
  | PyFood (f : Food.t).

Inductive exn :=
  | IngredientError (to_parse : pyobj) (message : string)
  | KeyError (key : string)
  | AttributeError
  | ZeroDivisionError
  | OverflowError
  | DoesNotExist
  | MultipleObjectsReturned.

Inductive result (A : Type) :=
  | OK (a : A)
  | Raise (e : exn).
Arguments OK {A} a.
Arguments Raise {A} e.

#[export] Instance result_ret : MRet result := fun _ a => OK a.
#[export] Instance result_bind : MBind result := fun _ _ f m =>
  match m with
  | OK a => f a
  | Raise e => Raise e
  end.

Fixpoint foldM {A B : Type} (f : B -> A -> result B) (b : B) (l : list A) : result B :=
  match l with
  | [] => OK b
  | a :: l' => b' ← f b a; foldM f b' l'
  end.

Fixpoint mapM_result {A B : Type} (f : A -> result B) (l : list A) : result (list B) :=
  match l with
  | [] => OK []
  | a :: l' => b ← f a; bs ← mapM_result f l'; OK (b :: bs)
  end.

(** [d[k]] on a dictionary. *)
Definition dict_getitem {A : Type} (d : gmap string A) (k : string) : result A :=
  match d !! k with
  | Some v => OK v
  | None => Raise (KeyError k)
  end.

(** The keys and the items of a dictionary, as the [for] loops read them.
    Python yields them in insertion order, [map_to_list] in the order of the
    map: every loop below touches one key per iteration, which makes the
    order immaterial. *)
Definition dict_keys {A : Type} (d : gmap string A) : list string := (map_to_list d).*1.
Definition dict_items {A : Type} (d : gmap string A) : list (string * A) := map_to_list d.

(** ** Python numbers *)

Module Float64.

(** The integer nearest to [x / d], ties to even ([0 <= x], [0 < d]). *)
Definition round_half_even (x d : Z) : Z :=
  let q := (x / d)%Z in
  let r := (x mod d)%Z in
  match (2 * r ?= d)%Z with
  | Lt => q
  | Gt => (q + 1)%Z
  | Eq => if Z.even q then q else (q + 1)%Z
  end.

(** [floor (log2 (n / d))]: the [j] with [2 ^ j <= n / d < 2 ^ (j + 1)]. *)
Definition ilog2 (n d : Z) : Z :=
  let j := (Z.log2 n - Z.log2 d)%Z in
  let below := if (0 <=? j)%Z then (d * 2 ^ j <=? n)%Z else (d <=? n * 2 ^ (- j))%Z in
  if below then j else (j - 1)%Z.

(** The exponent of the binary64 numbers of the binade of [n / d]. *)
Definition exponent (n d : Z) : Z := fexp prec emax (ilog2 n d + 1).

(** [n / d] in units of [2 ^ e], rounded to an integer. *)
Definition mantissa (n d e : Z) : Z :=
  if (e <? 0)%Z then round_half_even (n * 2 ^ (- e)) d else round_half_even n (d * 2 ^ e).

(** The binary64 number nearest to [n / d] (ties to even), with the sign
    [neg]: zero on underflow, an infinity on overflow ([0 <= n], [0 < d]). *)
Definition SF_of_ratio (neg : bool) (n d : Z) : spec_float :=
  if (n <=? 0)%Z then S754_zero neg
  else
    let e := exponent n d in
    let m := mantissa n d e in
    let '(m, e) := if (m =? 2 ^ prec)%Z then (2 ^ (prec - 1), e + 1)%Z else (m, e) in
    match m with
    | Zpos p => if (e <=? emax - prec)%Z then S754_finite neg p e else S754_infinity neg
    | _ => S754_zero neg
    end.

Definition of_ratio (neg : bool) (n d : Z) : float := SF2Prim (SF_of_ratio neg n d).

Definition of_Z (z : Z) : float := of_ratio (z <? 0)%Z (Z.abs z) 1.

(** [m * 2 ^ e * 100] rounded to an integer: the value in hundredths. *)
Definition hundredths (m : positive) (e : Z) : Z :=
  if (e <? 0)%Z then round_half_even (Zpos m * 100) (2 ^ (- e))
  else (Zpos m * 100 * 2 ^ e)%Z.

(** [round(x, 2)] on a float: NaN, the infinities and the zeros round to
    themselves; a finite [x] goes to the decimal with two fractional digits
    nearest to its exact value (ties to even), and that decimal back to the
    nearest float. *)
Definition round2 (x : float) : float :=
  match Prim2SF x with
  | S754_finite s m e => of_ratio s (hundredths m e) 100
  | _ => x
  end.

End Float64.

(** A Python number: an [int] or a [float]. *)
Inductive pynum :=
  | PyInt (z : Z)
  | PyFloat (f : float).

(** [float(z)] for an [int]: [OverflowError] when [z] is out of range. *)
Definition float_of_int (z : Z) : result float :=
  let f := Float64.of_Z z in
  if is_infinity f then Raise OverflowError else OK f.

(** [float(d)] for a [Decimal]. *)
Definition float_of_Decimal (d : Decimal) : float :=
  Float64.of_ratio (coeff d <? 0)%Z (Z.abs (coeff d)) (10 ^ Z.of_N (places d)).

(** The operand of a mixed operation as a [float]. *)
Definition as_float (x : pynum) : result float :=
  match x with
  | PyInt z => float_of_int z
  | PyFloat f => OK f
  end.

(** [x == 0]: the falsy numbers, [0], [0.0] and [-0.0]. *)
Definition py_is_zero (x : pynum) : bool :=
  match x with
  | PyInt z => (z =? 0)%Z
  | PyFloat f => is_zero f
  end.

(** [x + y]. *)
Definition py_add (x y : pynum) : result pynum :=
  match x, y with
  | PyInt a, PyInt b => OK (PyInt (a + b))
  | _, _ => f ← as_float x; g ← as_float y; OK (PyFloat (f + g))
  end.

(** [x / y] on two floats: Python raises where IEEE 754 divides by zero. *)
Definition float_truediv (f g : float) : result float :=
  if is_zero g then Raise ZeroDivisionError else OK (f / g)%float.

(** [x / y]: true division; two [int]s give the correctly rounded quotient. *)
Definition py_truediv (x y : pynum) : result pynum :=
  match x, y with
  | PyInt a, PyInt b =>
      if (b =? 0)%Z then Raise ZeroDivisionError
      else
        let q := Float64.of_ratio (xorb (a <? 0)%Z (b <? 0)%Z) (Z.abs a) (Z.abs b) in
        if is_infinity q then Raise OverflowError else OK (PyFloat q)
  | _, _ => f ← as_float x; g ← as_float y; q ← float_truediv f g; OK (PyFloat q)
  end.

(** [round(x, 2)]: an [int] is returned as it is. *)
Definition py_round2 (x : pynum) : pynum :=
  match x with
  | PyInt z => PyInt z
  | PyFloat f => PyFloat (Float64.round2 f)
  end.

(** Truth value of what [calc_nutrient] returns: [None] and the zeros are falsy. *)
Definition truthy (calculated : option float) : bool :=
  match calculated with
  | None => false
  | Some f => negb (is_zero f)
  end.

(** Truth value of a string: only the empty string is falsy. *)
Definition str_truthy (s : string) : bool :=
  match s with
  | EmptyString => false
  | String _ _ => true
  end.

(** ** Django query sets *)

(** [manager.exists()]. *)
Definition qs_exists {A : Type} (qs : list A) : bool :=
  match qs with
  | [] => false
  | _ :: _ => true
  end.

(** [food.nutrition.get(tagname=tagname)]. *)
Definition nutrition_get (food : Food.t) (tagname : string) : result FoodNutrition.t :=
  match filter (fun n => FoodNutrition.tagname n = tagname) (Food.nutrition food) with
  | [] => Raise DoesNotExist
  | [n] => OK n
  | _ :: _ :: _ => Raise MultipleObjectsReturned
  end.

(** ** The ingredient resolver *)

(** What [search.parse_ingredient] returns. *)
Module Parsed.
Record t := mk {
  amount : float;
  unit : string;
  measurement : string;
  name : string
}.
End Parsed.

Module Ingredient.

Record t := mk {
  amount : float;
  unit : string;
  measurement : string;
  name : string;
  matched_food : Food.t;
  weight : float
}.

Section Resolver.
Variable parse_ingredient : string -> Parsed.t.
Variable match_one_food : string -> option Food.t.
Variable match_one_weight : Food.t -> string -> option FoodWeight.t.
Variable unit_to_grams : gmap string float.

(** [get_weight] reads [self.amount], [self.measurement] and
    [self.matched_food]. *)
Definition get_weight (amount : float) (measurement : string) (matched_food : Food.t)
  : result float :=
  if negb (qs_exists (Food.weight matched_food)) then
    Raise (IngredientError (PyFood matched_food)
             "This food doesn't have any FoodWeight objects.")
  else
    match match_one_weight matched_food measurement with
    | None => Raise AttributeError
    | Some matched_weight =>
        q ← float_truediv amount (float_of_Decimal (FoodWeight.amount matched_weight));
        OK (float_of_Decimal (FoodWeight.weight matched_weight) * q)%float
    end.

(** [Ingredient(to_parse)]. *)
Definition init (to_parse : string) : result t :=
  let parsed := parse_ingredient to_parse in
  match match_one_food (Parsed.name parsed) with
  | None => Raise (IngredientError (PyStr to_parse) "Couldn't match a food object.")
  | Some food =>
      w ← (if str_truthy (Parsed.unit parsed) then
             g ← dict_getitem unit_to_grams (Parsed.unit parsed);
             OK (Parsed.amount parsed * g)%float
           else
             get_weight (Parsed.amount parsed) (Parsed.measurement parsed) food);
      OK (mk (Parsed.amount parsed) (Parsed.unit parsed) (Parsed.measurement parsed)
            (Parsed.name parsed) food w)
  end.
End Resolver.

(** [get_nutrient_by_tagname]: only [DoesNotExist] is caught. *)
Definition get_nutrient_by_tagname (self : t) (tagname : string)
  : result (option FoodNutrition.t) :=
  match nutrition_get (matched_food self) tagname with
  | OK n => OK (Some n)
  | Raise DoesNotExist => OK None
  | Raise e => Raise e
  end.

Definition calc_nutrient (self : t) (tagname : string) : result (option float) :=
  nutrient ← get_nutrient_by_tagname self tagname;
  match nutrient with
  | None => OK None
  | Some n => OK (Some (float_of_Decimal (FoodNutrition.value n) / 100 * weight self)%float)
  end.

Definition energy self := calc_nutrient self "ENERC_KCAL".
Definition protein self := calc_nutrient self "PROCNT".
Definition fat self := calc_nutrient self "FAT".
Definition fat_sat self := calc_nutrient self "FASAT".
Definition fat_poly self := calc_nutrient self "FAPU".
Definition fat_mono self := calc_nutrient self "FAMS".
Definition carb self := calc_nutrient self "CHOCDF".
Definition sugar self := calc_nutrient self "SUGAR".
Definition chol self := calc_nutrient self "CHOLE".
Definition sodium self := calc_nutrient self "NA".
Definition potas self := calc_nutrient self "K".
Definition fiber self := calc_nutrient self "FIBTG".

End Ingredient.

(** ** Aggregation *)

Definition total_nutrition0 : gmap string pynum :=
  list_to_map
    [("ENERGY", PyInt 0); ("FAT", PyInt 0); ("PROTEIN", PyInt 0); ("CARB", PyInt 0);
     ("SUGAR", PyInt 0); ("CHOLE", PyInt 0); ("SODIUM", PyInt 0); ("POTAS", PyInt 0);
     ("FIBER", PyInt 0)].

Definition to_tagname : gmap string string :=
  list_to_map
    [("ENERGY", "ENERC_KCAL"); ("FAT", "FAT"); ("PROTEIN", "PROCNT"); ("CARB", "CHOCDF");
     ("FAT_SAT", "FASAT"); ("FAT_POLY", "FAPU"); ("FAT_MONO", "FAMS"); ("SUGAR", "SUGAR");
     ("CHOLE", "CHOLE"); ("SODIUM", "NA"); ("POTAS", "K"); ("FIBER", "FIBTG")].

Definition units : gmap string string :=
  list_to_map
    [("ENERGY", "kcal"); ("FAT", "g"); ("PROTEIN", "g"); ("CARB", "g");
     ("FAT_KCAL", "kcal"); ("PROTEIN_KCAL", "kcal"); ("CARB_KCAL", "kcal");
     ("FAT_SAT", "g"); ("FAT_POLY", "g"); ("FAT_MONO", "g"); ("SUGAR", "g");
     ("CHOLE", "mg"); ("SODIUM", "mg"); ("POTAS", "mg"); ("FIBER", "g")].

(** The body of the inner loop: [calculated = i.calc_nutrient(to_tagname[n])],
    then [total_nutrition[n] += calculated] when [calculated] is truthy. *)
Definition add_nutrient (i : Ingredient.t) (total_nutrition : gmap string pynum) (n : string)
  : result (gmap string pynum) :=
  tagname ← dict_getitem to_tagname n;
  calculated ← Ingredient.calc_nutrient i tagname;
  if truthy calculated then
    match calculated with
    | Some c =>
        old ← dict_getitem total_nutrition n;
        new ← py_add old (PyFloat c);
        OK (<[n := new]> total_nutrition)
    | None => OK total_nutrition
    end
  else OK total_nutrition.

(** [for n in total_nutrition: ...] for one ingredient. *)
Definition add_ingredient (total_nutrition : gmap string pynum) (i : Ingredient.t)
  : result (gmap string pynum) :=
  foldM (add_nutrient i) total_nutrition (dict_keys total_nutrition).

(** [total_nutrition[k] = (round(v, 2), units[k])]. *)
Definition round_entry (kv : string * pynum) : result (string * (pynum * string)) :=
  u ← dict_getitem units kv.1;
  OK (kv.1, (py_round2 kv.2, u)).

Definition calculate_total_nutrition (ingredients : list Ingredient.t)
  : result (gmap string (pynum * string)) :=
  total_nutrition ← foldM add_ingredient total_nutrition0 ingredients;
  rounded ← mapM_result round_entry (dict_items total_nutrition);
  OK (list_to_map rounded).

(** [k: (round(t[0] / servings, 2), t[1])]. *)
Definition serving_entry (servings : Z) (kt : string * (pynum * string))
  : result (string * (pynum * string)) :=
  q ← py_truediv kt.2.1 (PyInt servings);
  OK (kt.1, (py_round2 q, kt.2.2)).

Definition calculate_serving_nutrition (total_nutrition : gmap string (pynum * string))
    (servings : Z) : result (gmap string (pynum * string)) :=
  items ← mapM_result (serving_entry servings) (dict_items total_nutrition);
  OK (list_to_map items).

(** ** Vocabulary of the specification *)

(** The attributes [to_parse] and [message] that [IngredientError.__init__]
    sets; the other exceptions do not have them. *)
Definition error_to_parse (e : exn) : option pyobj :=
  match e with
  | IngredientError o _ => Some o
  | _ => None
  end.

Definition error_message (e : exn) : option string :=
  match e with
  | IngredientError _ m => Some m
  | _ => None
  end.

(** An error "carries the original raw text and a human-readable reason". *)
Definition carries_raw_text (e : exn) (to_parse : string) : Prop :=
  error_to_parse e = Some (PyStr to_parse) /\ is_Some (error_message e).

(** The data model allows at most one [FoodNutrition] per tagname and food. *)
Definition unique_tagnames (food : Food.t) : Prop :=
  NoDup (FoodNutrition.tagname <$> Food.nutrition food).

Definition resolved (i : Ingredient.t) : Prop :=
  unique_tagnames (Ingredient.matched_food i).

(** The reported keys and their fixed units: kcal for energy, mg for
    cholesterol, sodium and potassium, g for the others. *)
Definition reported_keys : list string :=
  ["ENERGY"; "FAT"; "PROTEIN"; "CARB"; "SUGAR"; "CHOLE"; "SODIUM"; "POTAS"; "FIBER"].

Definition fixed_unit (k : string) : string :=
  if String.eqb k "ENERGY" then "kcal"
  else if String.eqb k "CHOLE" || String.eqb k "SODIUM" || String.eqb k "POTAS" then "mg"
  else "g".

(** Two amounts are the same number: identical, or both zero ([0], [0.0] and
    [-0.0] are equal in Python; no other [int] occurs in a total). *)
Definition same_amount (x y : pynum) : Prop :=
  x = y \/ (py_is_zero x = true /\ py_is_zero y = true).

(** The amounts a total can hold: the initial [0], or a float. *)
Definition amount_ok (x : pynum) : Prop := x = PyInt 0 \/ exists f, x = PyFloat f.

(** "Absent treated as 0": what an ingredient contributes to a tagname. *)
Definition contribution (i : Ingredient.t) (tagname : string) : pynum :=
  match Ingredient.calc_nutrient i tagname with
  | OK (Some c) => PyFloat c
  | _ => PyInt 0
  end.

(** [sum(... for i in ingredients)]: from [0], left to right. *)
Definition sum_contributions (tagname : string) (ingredients : list Ingredient.t)
  : result pynum :=
  foldM (fun acc i => py_add acc (contribution i tagname)) (PyInt 0) ingredients.

(** The unguarded accumulation: every contribution that is not [None] is
    added, the zeros too. *)
Definition add_nutrient_unguarded (i : Ingredient.t) (total_nutrition : gmap string pynum)
    (n : string) : result (gmap string pynum) :=
  tagname ← dict_getitem to_tagname n;
  calculated ← Ingredient.calc_nutrient i tagname;
  match calculated with
  | Some c =>
      old ← dict_getitem total_nutrition n;
      new ← py_add old (PyFloat c);
      OK (<[n := new]> total_nutrition)
  | None => OK total_nutrition
  end.

Definition add_ingredient_unguarded (total_nutrition : gmap string pynum) (i : Ingredient.t)
  : result (gmap string pynum) :=
  foldM (add_nutrient_unguarded i) total_nutrition (dict_keys total_nutrition).

Definition calculate_total_nutrition_unguarded (ingredients : list Ingredient.t)
  : result (gmap string (pynum * string)) :=
  total_nutrition ← foldM add_ingredient_unguarded total_nutrition0 ingredients;
  rounded ← mapM_result round_entry (dict_items total_nutrition);
  OK (list_to_map rounded).

(** What the accumulation can see of a contribution: [None] for a falsy one. *)
Definition visible (calculated : result (option float)) : result (option float) :=
  c ← calculated; OK (if truthy c then c else None).

(** ** The accumulation, one key at a time *)

(** What the guarded loop body does to the entry of a key, given what
    [calc_nutrient] returned. *)
Definition guarded_step (v : pynum) (calculated : option float) : result pynum :=
  if truthy calculated then
    match calculated with
    | Some c => py_add v (PyFloat c)
    | None => OK v
    end
  else OK v.

Definition unguarded_step (v : pynum) (calculated : option float) : result pynum :=
  match calculated with
  | Some c => py_add v (PyFloat c)
  | None => OK v
  end.

(** One term of the sum of the specification. *)
Definition sum_step (v : pynum) (calculated : option float) : result pynum :=
  py_add v (match calculated with Some c => PyFloat c | None => PyInt 0 end).

(** The entry of key [n] after ingredient [i], for a step function. *)
Definition key_step (step : pynum -> option float -> result pynum)
    (i : Ingredient.t) (n : string) (v : pynum) : result pynum :=
  tagname ← dict_getitem to_tagname n;
  calculated ← Ingredient.calc_nutrient i tagname;
  step v calculated.

(** The entry of key [n] after all the ingredients. *)
Definition key_fold (step : pynum -> option float -> result pynum)
    (n : string) (v : pynum) (ingredients : list Ingredient.t) : result pynum :=
  foldM (fun v i => key_step step i n v) v ingredients.

(** A step function keeps pace with the guarded one: from equal amounts both
    succeed, with equal amounts. *)
Definition step_related (alt : pynum -> option float -> result pynum) : Prop :=
  forall x y c, amount_ok x -> amount_ok y -> same_amount x y ->
    exists x' y', guarded_step x c = OK x' /\ alt y c = OK y' /\
      amount_ok x' /\ amount_ok y' /\ same_amount x' y'.

(** [n / d >= 2 ^ j], in integers. *)
Definition ratio_ge (n d j : Z) : Prop :=
  (d * 2 ^ Z.max j 0 <= n * 2 ^ Z.max (- j) 0)%Z.

(** The values that the two dictionary-building loops store under a key. *)
Definition rounded_value (k : string) (v : pynum) : result (pynum * string) :=
  u ← dict_getitem units k; OK (py_round2 v, u).

Definition serving_value (servings : Z) (k : string) (t : pynum * string)
  : result (pynum * string) :=
  q ← py_truediv t.1 (PyInt servings); OK (py_round2 q, t.2).

(** ** Vocabulary of the further properties *)

(** [-x]. *)
Definition py_neg (x : pynum) : pynum :=
  match x with
  | PyInt z => PyInt (- z)
  | PyFloat f => PyFloat (- f)
  end.

(** What the totals show of one contribution: [round(0 + c, 2)] for a truthy
    [c], the initial [0] otherwise. *)
Definition reported_amount (calculated : option float) : pynum :=
  match calculated with
  | Some c => if is_zero c then PyInt 0 else PyFloat (Float64.round2 c)
  | None => PyInt 0
  end.

(** The entries of the food of an ingredient for a tagname. *)
Definition entries (i : Ingredient.t) (tagname : string) : list FoodNutrition.t :=
  filter (fun n => FoodNutrition.tagname n = tagname) (Food.nutrition (Ingredient.matched_food i)).

(** The food has at most one entry for the tagname of every reported key. *)
Definition at_most_one_entry (i : Ingredient.t) : Prop :=
  forall k t, k ∈ reported_keys -> to_tagname !! k = Some t -> (length (entries i t) <= 1)%nat.

(** The dictionary that the accumulation works on: the reported keys, each
    with the initial [0] or a float. *)
Definition accumulator (d : gmap string pynum) : Prop :=
  forall k, match d !! k with
            | Some v => k ∈ reported_keys /\ amount_ok v
            | None => k ∉ reported_keys
            end.

(** An ingredient without a truthy contribution to any reported key. *)
Definition no_contribution (i : Ingredient.t) : Prop :=
  forall k t, k ∈ reported_keys -> to_tagname !! k = Some t ->
    visible (Ingredient.calc_nutrient i t) = OK None.

(** The totals show, under key [k], what a property of the ingredient
    returned. *)
Definition shows (total : gmap string (pynum * string)) (k : string)
    (property : result (option float)) : Prop :=
  exists c, property = OK c /\ total !! k = Some (reported_amount c, fixed_unit k).

(** An entry of the totals with its amount negated. *)
Definition negated (t : pynum * string) : pynum * string := (py_neg t.1, t.2).

(** Two ingredients whose contributions to the reported keys look the same
    to the accumulation. *)
Definition same_reported (i i' : Ingredient.t) : Prop :=
  forall k t, k ∈ reported_keys -> to_tagname !! k = Some t ->
    visible (Ingredient.calc_nutrient i t) = visible (Ingredient.calc_nutrient i' t).

(** ** The scenarios of the specification, as concrete collaborators *)

Module Scenario.

Definition slice : FoodWeight.t :=
  FoodWeight.mk 1 (mkDecimal 1000 3) "slice" (mkDecimal 280 1) None None.

Definition chicken : Food.t :=
  Food.mk "Chicken, broilers or fryers, breast, meat and skin, raw" [slice]
    [FoodNutrition.mk "ENERC_KCAL" (mkDecimal 17200 2);
     FoodNutrition.mk "PROCNT" (mkDecimal 2085 2);
     FoodNutrition.mk "FAT" (mkDecimal 925 2)].

Definition bread : Food.t :=
  Food.mk "Bread, white" [slice]
    [FoodNutrition.mk "ENERC_KCAL" (mkDecimal 22800 2);
     FoodNutrition.mk "SUGAR" (mkDecimal 0 2)].

(** A food without any [FoodWeight]. *)
Definition water : Food.t :=
  Food.mk "Water, tap" [] [FoodNutrition.mk "ENERC_KCAL" (mkDecimal 0 2)].

Definition parse_ingredient (to_parse : string) : Parsed.t :=
  if String.eqb to_parse "100 g of chicken breast" then Parsed.mk 100 "g" "" "chicken breast"
  else if String.eqb to_parse "100 g of bread" then Parsed.mk 100 "g" "" "bread"
  else if String.eqb to_parse "2 slices of bread" then Parsed.mk 2 "" "slices" "bread"
  else if String.eqb to_parse "3 zz of bread" then Parsed.mk 3 "zz" "" "bread"
  else if String.eqb to_parse "2 glasses of water" then Parsed.mk 2 "" "glasses" "water"
  else Parsed.mk 1 "" "" to_parse.

Definition match_one_food (name : string) : option Food.t :=
  if String.eqb name "chicken breast" then Some chicken
  else if String.eqb name "bread" then Some bread
  else if String.eqb name "water" then Some water
  else None.

Definition match_one_weight (food : Food.t) (measurement : string) : option FoodWeight.t :=
  head (Food.weight food).

Definition unit_to_grams : gmap string float :=
  list_to_map [("g", 1%float); ("kg", 1000%float)].

Definition make : string -> result Ingredient.t :=
  Ingredient.init parse_ingredient match_one_food match_one_weight unit_to_grams.

Definition chicken_100g : Ingredient.t :=
  Ingredient.mk 100 "g" "" "chicken breast" chicken 100.

Definition bread_100g : Ingredient.t :=
  Ingredient.mk 100 "g" "" "bread" bread 100.

Definition bread_2_slices : Ingredient.t :=
  Ingredient.mk 2 "" "slices" "bread" bread 56.

(** The same bread, its zero-valued sugar entry missing. *)
Definition bread_without_sugar : Food.t :=
  Food.mk "Bread, white" [slice] [FoodNutrition.mk "ENERC_KCAL" (mkDecimal 22800 2)].

Definition bread_2_slices_without_sugar : Ingredient.t :=
  Ingredient.mk 2 "" "slices" "bread" bread_without_sugar 56.

End Scenario.

(** * Properties *)

(** ** The model on the scenarios of the specification *)

(** Scenario A: "100 g of chicken breast" weighs 100 g, with 172 kcal,
    20.85 g of protein and 9.25 g of fat. *)
Example scenario_A :
  Scenario.make "100 g of chicken breast" = OK Scenario.chicken_100g /\
  Ingredient.energy Scenario.chicken_100g = OK (Some 172%float) /\
  Ingredient.protein Scenario.chicken_100g = OK (Some (float_of_Decimal (mkDecimal 2085 2))) /\
  Ingredient.fat Scenario.chicken_100g = OK (Some (float_of_Decimal (mkDecimal 925 2))).
Proof. repeat split; reflexivity. Qed.

(** Scenario B: two slices of 28 g weigh 56 g. *)
Example scenario_B : Scenario.make "2 slices of bread" = OK Scenario.bread_2_slices.
Proof. reflexivity. Qed.

(** Scenario E: an unmatched name fails with the text that was to be parsed. *)
Example scenario_E :
  Scenario.make "1 cup of unobtainium" =
    Raise (IngredientError (PyStr "1 cup of unobtainium") "Couldn't match a food object.").
Proof. reflexivity. Qed.

(** [Float64.of_ratio] agrees with the division of the hardware where both
    operands are floats, and [float(2 ** 53 + 1)] rounds to even. *)
Example of_ratio_is_division :
  Float64.of_ratio false 1 3 = (1 / 3)%float /\
  Float64.of_ratio false 2085 100 = (2085 / 100)%float /\
  Float64.of_ratio true 7 1000 = (-7 / 1000)%float /\
  float_of_int (2 ^ 53 + 1) = OK 9007199254740992%float.
Proof. repeat split; reflexivity. Qed.

(** [round(2.675, 2) == 2.67], [round(0.125, 2) == 0.12],
    [round(0.375, 2) == 0.38] and [round(-0.001, 2) == -0.0]. *)
Example round2_examples :
  Float64.round2 (float_of_Decimal (mkDecimal 2675 3)) = float_of_Decimal (mkDecimal 267 2) /\
  Float64.round2 (float_of_Decimal (mkDecimal 125 3)) = float_of_Decimal (mkDecimal 12 2) /\
  Float64.round2 (float_of_Decimal (mkDecimal 375 3)) = float_of_Decimal (mkDecimal 38 2) /\
  Float64.round2 (float_of_Decimal (mkDecimal (-1) 3)) = (-0)%float.
Proof. repeat split; reflexivity. Qed.

(** ** The error monad *)

Lemma bind_OK {A B : Type} (m : result A) (f : A -> result B) (b : B) :
  (m ≫= f) = OK b -> exists a, m = OK a /\ f a = OK b.
Proof. destruct m as [a|e]; simpl; [eauto | discriminate]. Qed.

Ltac inv_bind H :=
  let x := fresh "x" in
  let Hx := fresh "Hx" in
  apply bind_OK in H; destruct H as (x & Hx & H).

(** ** Weight resolution *)

Section ResolverFacts.
Variable parse_ingredient : string -> Parsed.t.
Variable match_one_food : string -> option Food.t.
Variable match_one_weight : Food.t -> string -> option FoodWeight.t.
Variable unit_to_grams : gmap string float.

Local Abbreviation init :=
  (Ingredient.init parse_ingredient match_one_food match_one_weight unit_to_grams).

(** The fields of a constructed ingredient are those the parser and the
    food matcher returned. *)
Lemma init_fields (to_parse : string) (ing : Ingredient.t) :
  init to_parse = OK ing ->
  Ingredient.amount ing = Parsed.amount (parse_ingredient to_parse) /\
  Ingredient.unit ing = Parsed.unit (parse_ingredient to_parse) /\
  Ingredient.measurement ing = Parsed.measurement (parse_ingredient to_parse) /\
  match_one_food (Parsed.name (parse_ingredient to_parse)) = Some (Ingredient.matched_food ing).
Proof.
  unfold Ingredient.init. intros H.
  destruct (match_one_food _) as [food|]; [|discriminate].
  inv_bind H. injection H as <-. simpl. auto.
Qed.

(** C1: the weight of a constructed ingredient follows exactly one of two
    rules, chosen by the parsed unit: with a unit, [amount] times the grams of
    the unit; without, the selected weight entry scaled by
    [amount / reference amount]. *)
Theorem init_weight_rule (to_parse : string) (ing : Ingredient.t) :
  init to_parse = OK ing ->
  (Ingredient.unit ing <> "" /\
   exists g, unit_to_grams !! Ingredient.unit ing = Some g /\
     Ingredient.weight ing = (Ingredient.amount ing * g)%float)
  \/
  (Ingredient.unit ing = "" /\
   exists w, match_one_weight (Ingredient.matched_food ing) (Ingredient.measurement ing) = Some w /\
     Ingredient.weight ing =
       (float_of_Decimal (FoodWeight.weight w) *
          (Ingredient.amount ing / float_of_Decimal (FoodWeight.amount w)))%float).
Proof.
  unfold Ingredient.init. intros H.
  destruct (match_one_food _) as [food|]; [|discriminate].
  inv_bind H. injection H as <-. simpl.
  destruct (Parsed.unit (parse_ingredient to_parse)) as [|c u] eqn:Hu; simpl in Hx.
  - right. split; [reflexivity|].
    unfold Ingredient.get_weight in Hx.
    destruct (qs_exists (Food.weight food)); [|discriminate]. simpl in Hx.
    destruct (match_one_weight food _) as [w|]; [|discriminate].
    inv_bind Hx. injection Hx as <-.
    unfold float_truediv in Hx0.
    destruct (is_zero _); [discriminate|]. injection Hx0 as <-.
    exists w. auto.
  - left. split; [discriminate|].
    inv_bind Hx. injection Hx as <-.
    unfold dict_getitem in Hx0.
    destruct (unit_to_grams !! String c u) as [g|]; [|discriminate].
    injection Hx0 as <-. exists g. auto.
Qed.

End ResolverFacts.

Lemma init_weight_rule_witness :
  Scenario.make "2 slices of bread" = OK Scenario.bread_2_slices /\
  Ingredient.weight Scenario.bread_2_slices =
    (float_of_Decimal (mkDecimal 280 1) * (2 / float_of_Decimal (mkDecimal 1000 3)))%float.
Proof.
  split; [reflexivity|].
  destruct (init_weight_rule Scenario.parse_ingredient Scenario.match_one_food
              Scenario.match_one_weight Scenario.unit_to_grams
              "2 slices of bread" Scenario.bread_2_slices) as [[H _]|[_ (w & Hw & ->)]].
  - reflexivity.
  - exfalso. apply H. reflexivity.
  - injection Hw as <-. reflexivity.
Defined.

(** ** Nutrient lookup *)

Lemma filter_tagname_nil (l : list FoodNutrition.t) (t : string) :
  (forall n, n ∈ l -> FoodNutrition.tagname n <> t) ->
  filter (fun n => FoodNutrition.tagname n = t) l = [].
Proof.
  induction l as [|a l IH]; intros H; [reflexivity|].
  rewrite filter_cons. destruct (decide (FoodNutrition.tagname a = t)) as [Ha|Ha].
  - exfalso. apply (H a); [left | exact Ha].
  - apply IH. intros n Hn. apply H. right. exact Hn.
Qed.

Lemma filter_tagname_unique (l : list FoodNutrition.t) (n : FoodNutrition.t) :
  NoDup (FoodNutrition.tagname <$> l) -> n ∈ l ->
  filter (fun n' => FoodNutrition.tagname n' = FoodNutrition.tagname n) l = [n].
Proof.
  induction l as [|a l IH]; intros Hnd Hin.
  - inversion Hin.
  - rewrite fmap_cons in Hnd. apply NoDup_cons in Hnd as [Ha Hnd].
    rewrite filter_cons. apply elem_of_cons in Hin as [->|Hin].
    + rewrite decide_True by reflexivity. f_equal.
      apply filter_tagname_nil. intros n' Hn' Heq. apply Ha.
      rewrite <- Heq. apply list_elem_of_fmap_2. exact Hn'.
    + rewrite decide_False; [apply IH; assumption|].
      intros Heq. apply Ha. rewrite Heq. apply list_elem_of_fmap_2. exact Hin.
Qed.

Lemma calc_nutrient_entry (self : Ingredient.t) (n : FoodNutrition.t) :
  unique_tagnames (Ingredient.matched_food self) ->
  n ∈ Food.nutrition (Ingredient.matched_food self) ->
  Ingredient.calc_nutrient self (FoodNutrition.tagname n) =
    OK (Some (float_of_Decimal (FoodNutrition.value n) / 100 * Ingredient.weight self)%float).
Proof.
  intros Hu Hn.
  unfold Ingredient.calc_nutrient, Ingredient.get_nutrient_by_tagname, nutrition_get.
  rewrite (filter_tagname_unique _ n Hu Hn). reflexivity.
Qed.

Lemma calc_nutrient_no_entry (self : Ingredient.t) (t : string) :
  (forall n, n ∈ Food.nutrition (Ingredient.matched_food self) -> FoodNutrition.tagname n <> t) ->
  Ingredient.calc_nutrient self t = OK None.
Proof.
  intros H.
  unfold Ingredient.calc_nutrient, Ingredient.get_nutrient_by_tagname, nutrition_get.
  rewrite (filter_tagname_nil _ t H). reflexivity.
Qed.

(** C4: [calc_nutrient] scales the value per 100 g of the entry for the
    tagname by the weight; with no entry for the tagname it returns [None],
    and raises nothing. *)
Theorem calc_nutrient_spec (self : Ingredient.t) (t : string) :
  (forall n, unique_tagnames (Ingredient.matched_food self) ->
     n ∈ Food.nutrition (Ingredient.matched_food self) ->
     FoodNutrition.tagname n = t ->
     Ingredient.calc_nutrient self t =
       OK (Some (float_of_Decimal (FoodNutrition.value n) / 100 * Ingredient.weight self)%float))
  /\
  ((forall n, n ∈ Food.nutrition (Ingredient.matched_food self) -> FoodNutrition.tagname n <> t) ->
     Ingredient.calc_nutrient self t = OK None).
Proof.
  split.
  - intros n Hu Hn <-. apply calc_nutrient_entry; assumption.
  - apply calc_nutrient_no_entry.
Qed.

Lemma calc_nutrient_spec_witness :
  Ingredient.calc_nutrient Scenario.chicken_100g "PROCNT" =
    OK (Some (float_of_Decimal (mkDecimal 2085 2) / 100 * 100)%float) /\
  Ingredient.calc_nutrient Scenario.chicken_100g "FIBTG" = OK None.
Proof.
  split.
  - apply (proj1 (calc_nutrient_spec Scenario.chicken_100g "PROCNT")
             (FoodNutrition.mk "PROCNT" (mkDecimal 2085 2))).
    + unfold unique_tagnames. simpl. apply (bool_decide_unpack _). vm_compute. exact I.
    + simpl. right. left.
    + reflexivity.
  - apply (proj2 (calc_nutrient_spec Scenario.chicken_100g "FIBTG")).
    simpl. intros n Hn.
    repeat (apply elem_of_cons in Hn as [->|Hn]; [simpl; discriminate|]).
    inversion Hn.
Defined.

(** ** Construction errors *)

Section ResolverErrors.
Variable parse_ingredient : string -> Parsed.t.
Variable match_one_food : string -> option Food.t.
Variable match_one_weight : Food.t -> string -> option FoodWeight.t.
Variable unit_to_grams : gmap string float.

Local Abbreviation init :=
  (Ingredient.init parse_ingredient match_one_food match_one_weight unit_to_grams).

(** An unmatched name fails with the raw text (scenario E). *)
Lemma init_food_not_found (to_parse : string) :
  match_one_food (Parsed.name (parse_ingredient to_parse)) = None ->
  init to_parse = Raise (IngredientError (PyStr to_parse) "Couldn't match a food object.").
Proof. unfold Ingredient.init. intros ->. reflexivity. Qed.

(** C6, as the code has it: with a matched food, a non-empty unit that is
    not a key of [unit_to_grams] makes the construction fail with the
    [KeyError] of the table lookup, whose argument is the unit; no
    ingredient is returned. *)
Theorem init_unknown_unit (to_parse : string) (food : Food.t) :
  match_one_food (Parsed.name (parse_ingredient to_parse)) = Some food ->
  Parsed.unit (parse_ingredient to_parse) <> "" ->
  unit_to_grams !! Parsed.unit (parse_ingredient to_parse) = None ->
  init to_parse = Raise (KeyError (Parsed.unit (parse_ingredient to_parse))).
Proof.
  unfold Ingredient.init. intros -> Hu Hg.
  destruct (Parsed.unit (parse_ingredient to_parse)) as [|c u]; [contradiction|].
  simpl. unfold dict_getitem. rewrite Hg. reflexivity.
Qed.

(** Without a unit, a matched food that has no weight entry makes the
    construction fail with an [IngredientError] whose first argument is the
    food. *)
Lemma init_no_weight_data (to_parse : string) (food : Food.t) :
  match_one_food (Parsed.name (parse_ingredient to_parse)) = Some food ->
  Parsed.unit (parse_ingredient to_parse) = "" ->
  Food.weight food = [] ->
  init to_parse =
    Raise (IngredientError (PyFood food) "This food doesn't have any FoodWeight objects.").
Proof.
  unfold Ingredient.init, Ingredient.get_weight. intros -> -> ->. reflexivity.
Qed.

End ResolverErrors.

Lemma init_unknown_unit_witness :
  Scenario.make "3 zz of bread" = Raise (KeyError "zz").
Proof.
  apply (init_unknown_unit Scenario.parse_ingredient Scenario.match_one_food
           Scenario.match_one_weight Scenario.unit_to_grams "3 zz of bread" Scenario.bread).
  - reflexivity.
  - simpl. discriminate.
  - reflexivity.
Defined.

(** C6, as the specification states it, fails: for "3 zz of bread" the unit
    "zz" is non-empty and unknown, and the error raised carries neither the
    raw text nor a reason. *)
Lemma unknown_unit_error_lacks_raw_text :
  Parsed.unit (Scenario.parse_ingredient "3 zz of bread") <> "" /\
  Scenario.unit_to_grams !! Parsed.unit (Scenario.parse_ingredient "3 zz of bread") = None /\
  ~ (exists e, Scenario.make "3 zz of bread" = Raise e /\ carries_raw_text e "3 zz of bread").
Proof.
  split; [simpl; discriminate|]. split; [reflexivity|].
  intros (e & He & Hto & _).
  assert (e = KeyError "zz") as -> by (vm_compute in He; congruence).
  discriminate Hto.
Qed.

(** C7: for "2 glasses of water" no unit is parsed and the matched food has no
    weight entry; the [IngredientError] raised has the food, not the raw text,
    as its [to_parse]. *)
Theorem no_weight_error_carries_food :
  Parsed.unit (Scenario.parse_ingredient "2 glasses of water") = "" /\
  Food.weight Scenario.water = [] /\
  Scenario.make "2 glasses of water" =
    Raise (IngredientError (PyFood Scenario.water)
             "This food doesn't have any FoodWeight objects.") /\
  ~ (exists e, Scenario.make "2 glasses of water" = Raise e /\
       carries_raw_text e "2 glasses of water").
Proof.
  split; [reflexivity|]. split; [reflexivity|]. split; [reflexivity|].
  intros (e & He & Hto & _).
  vm_compute in He. injection He as <-. discriminate Hto.
Qed.

(** ** Binary64 facts: the zeros *)

Lemma Prim2SF_zero : Prim2SF zero = S754_zero false.
Proof. reflexivity. Qed.

Lemma is_zero_SF (f : float) :
  is_zero f = true <-> exists s, Prim2SF f = S754_zero s.
Proof.
  unfold is_zero. rewrite FloatAxioms.eqb_spec, Prim2SF_zero. unfold SFeqb, SFcompare.
  destruct (Prim2SF f) as [s|s| |s m e]; split.
  - eauto.
  - reflexivity.
  - destruct s; discriminate.
  - intros [s0 H]. discriminate.
  - discriminate.
  - intros [s0 H]. discriminate.
  - destruct s; discriminate.
  - intros [s0 H]. discriminate.
Qed.

Lemma is_zero_false_SF (f : float) :
  is_zero f = false <-> forall s, Prim2SF f <> S754_zero s.
Proof.
  split.
  - intros H s Hs. assert (is_zero f = true) by (apply is_zero_SF; eauto). congruence.
  - intros H. destruct (is_zero f) eqn:Hz; [|reflexivity].
    apply is_zero_SF in Hz as [s Hs]. destruct (H s Hs).
Qed.

(** A zero plus a float that is not a zero is that float. *)
Lemma add_zero_l (z c : float) :
  is_zero z = true -> is_zero c = false -> (z + c)%float = c.
Proof.
  intros Hz Hc. apply is_zero_SF in Hz as [s Hs].
  apply Prim2SF_inj. rewrite FloatAxioms.add_spec, Hs.
  pose proof (proj1 (is_zero_false_SF c) Hc) as Hn.
  destruct (Prim2SF c) as [s'|s'| |s' m e]; try reflexivity.
  destruct (Hn s' eq_refl).
Qed.

(** A float plus a zero is that float, or both are zeros and so is the sum. *)
Lemma add_zero_r (f z : float) :
  is_zero z = true ->
  (f + z)%float = f \/ (is_zero f = true /\ is_zero (f + z)%float = true).
Proof.
  intros Hz. apply is_zero_SF in Hz as [s Hs].
  destruct (Prim2SF f) as [s'|s'| |s' m e] eqn:Hf.
  - right. split; [apply is_zero_SF; eauto|].
    apply is_zero_SF. rewrite FloatAxioms.add_spec, Hf, Hs.
    destruct s', s; simpl; eauto.
  - left. apply Prim2SF_inj. rewrite FloatAxioms.add_spec, Hf, Hs. reflexivity.
  - left. apply Prim2SF_inj. rewrite FloatAxioms.add_spec, Hf, Hs. reflexivity.
  - left. apply Prim2SF_inj. rewrite FloatAxioms.add_spec, Hf, Hs. reflexivity.
Qed.

Lemma add_zeros (f z : float) :
  is_zero f = true -> is_zero z = true -> is_zero (f + z)%float = true.
Proof.
  intros Hf Hz. apply is_zero_SF in Hf as [s Hf]. apply is_zero_SF in Hz as [s' Hz].
  apply is_zero_SF. rewrite FloatAxioms.add_spec, Hf, Hz. destruct s, s'; simpl; eauto.
Qed.

(** [round(x, 2)] of a zero is that zero. *)
Lemma round2_zero (f : float) : is_zero f = true -> Float64.round2 f = f.
Proof.
  intros Hz. apply is_zero_SF in Hz as [s Hs]. unfold Float64.round2. rewrite Hs. reflexivity.
Qed.

(** ** Amounts that are the same number *)

Lemma same_amount_refl (x : pynum) : same_amount x x.
Proof. left. reflexivity. Qed.

Lemma same_amount_round2 (x y : pynum) :
  same_amount x y -> same_amount (py_round2 x) (py_round2 y).
Proof.
  intros [->|[Hx Hy]]; [left; reflexivity|]. right.
  destruct x as [a|f], y as [b|g]; simpl in *; rewrite ?round2_zero; auto.
Qed.

Lemma as_float_ok (x : pynum) : amount_ok x -> exists f, as_float x = OK f /\
  (py_is_zero x = true -> is_zero f = true) /\ (forall g, x = PyFloat g -> f = g).
Proof.
  intros [->|[f ->]].
  - exists 0%float. split; [reflexivity|]. split; [reflexivity|discriminate].
  - exists f. split; [reflexivity|]. split; [auto|]. intros g [= ->]. reflexivity.
Qed.

(** Adding a truthy contribution keeps two equal amounts equal. *)
Lemma py_add_same_truthy (x y : pynum) (c : float) :
  amount_ok x -> amount_ok y -> same_amount x y -> is_zero c = false ->
  exists x' y', py_add x (PyFloat c) = OK (PyFloat x') /\
                py_add y (PyFloat c) = OK (PyFloat y') /\ x' = y'.
Proof.
  intros Hx Hy Hs Hc.
  destruct (as_float_ok x Hx) as (fx & Hfx & Hzx & _).
  destruct (as_float_ok y Hy) as (fy & Hfy & Hzy & _).
  exists (fx + c)%float, (fy + c)%float.
  assert (forall v f, as_float v = OK f -> py_add v (PyFloat c) = OK (PyFloat (f + c))) as Hadd.
  { intros [a|g] f Hv; simpl in *; [rewrite Hv|injection Hv as ->]; reflexivity. }
  split; [auto|]. split; [auto|].
  destruct Hs as [->|[Zx Zy]]; [congruence|].
  rewrite !add_zero_l; auto.
Qed.

(** Adding a zero to an amount gives the same number. *)
Lemma py_add_zero_same (y : pynum) (z : float) :
  amount_ok y -> is_zero z = true ->
  exists y', py_add y (PyFloat z) = OK (PyFloat y') /\ same_amount y (PyFloat y').
Proof.
  intros Hy Hz. destruct Hy as [->|[f ->]].
  - exists (0 + z)%float. split; [reflexivity|]. right. split; [reflexivity|].
    simpl. apply add_zeros; [reflexivity|exact Hz].
  - exists (f + z)%float. split; [reflexivity|].
    destruct (add_zero_r f z Hz) as [->|[Hf Hfz]]; [left; reflexivity|right; auto].
Qed.

(** ** Loops over the keys of a dictionary *)

Lemma dict_keys_NoDup {A : Type} (d : gmap string A) : NoDup (dict_keys d).
Proof. apply NoDup_fst_map_to_list. Qed.

Lemma dict_keys_elem_of {A : Type} (d : gmap string A) (k : string) :
  k ∈ dict_keys d <-> is_Some (d !! k).
Proof.
  unfold dict_keys. rewrite list_elem_of_fmap. split.
  - intros ([k' v] & -> & H). apply elem_of_map_to_list in H. simpl. eauto.
  - intros [v H]. exists (k, v). split; [reflexivity|]. apply elem_of_map_to_list. exact H.
Qed.

Section KeyLoop.
Context {A : Type}.
(** A loop body that replaces the entry of the key it visits. *)
Variable body : gmap string A -> string -> result (gmap string A).
Variable upd : string -> A -> result A.
Hypothesis body_upd : forall d k v,
  d !! k = Some v -> body d k = (v' ← upd k v; OK (<[k := v']> d)).

Lemma foldM_keys (ks : list string) (d : gmap string A) :
  NoDup ks ->
  (forall k, k ∈ ks -> exists v v', d !! k = Some v /\ upd k v = OK v') ->
  exists d', foldM body d ks = OK d' /\
    (forall k, k ∈ ks -> exists v v', d !! k = Some v /\ upd k v = OK v' /\ d' !! k = Some v') /\
    (forall k, k ∉ ks -> d' !! k = d !! k).
Proof.
  revert d. induction ks as [|k ks IH]; intros d Hnd Hok.
  - exists d. split; [reflexivity|]. split; [|reflexivity].
    intros k Hk. inversion Hk.
  - apply NoDup_cons in Hnd as [Hk Hnd].
    destruct (Hok k) as (v & v' & Hv & Hv'); [left|].
    destruct (IH (<[k := v']> d) Hnd) as (d' & Hd' & Hin & Hout).
    { intros k' Hk'. destruct (Hok k') as (w & w' & Hw & Hw'); [right; exact Hk'|].
      exists w, w'. split; [|exact Hw'].
      rewrite lookup_insert_ne; [exact Hw|]. intros ->. contradiction. }
    exists d'. split; [|split].
    + simpl. rewrite (body_upd d k v Hv), Hv'. simpl. exact Hd'.
    + intros k' Hk'. apply elem_of_cons in Hk' as [->|Hk'].
      * exists v, v'. split; [exact Hv|]. split; [exact Hv'|].
        rewrite (Hout k Hk). apply lookup_insert_eq.
      * destruct (Hin k' Hk') as (w & w' & Hw & Hw' & Hd).
        exists w, w'. split; [|auto].
        rewrite lookup_insert_ne in Hw; [exact Hw|]. intros ->. contradiction.
    + intros k' Hk'. apply not_elem_of_cons in Hk' as [Hne Hk'].
      rewrite (Hout k' Hk'). apply lookup_insert_ne. congruence.
Qed.

(** A loop over all the keys of [d]. *)
Lemma foldM_dict_keys (d : gmap string A) :
  (forall k v, d !! k = Some v -> exists v', upd k v = OK v') ->
  exists d', foldM body d (dict_keys d) = OK d' /\
    (forall k v, d !! k = Some v -> exists v', upd k v = OK v' /\ d' !! k = Some v') /\
    (forall k, d !! k = None -> d' !! k = None).
Proof.
  intros Hok.
  destruct (foldM_keys (dict_keys d) d (dict_keys_NoDup d)) as (d' & Hd' & Hin & Hout).
  { intros k Hk. apply dict_keys_elem_of in Hk as [v Hv].
    destruct (Hok k v Hv) as [v' Hv']. eauto. }
  exists d'. split; [exact Hd'|]. split.
  - intros k v Hv.
    destruct (Hin k) as (w & w' & Hw & Hw' & Hd); [apply dict_keys_elem_of; eauto|].
    rewrite Hv in Hw. injection Hw as <-. eauto.
  - intros k Hk. rewrite Hout; [exact Hk|].
    rewrite dict_keys_elem_of, Hk. intros [v Hv]. discriminate.
Qed.
End KeyLoop.

(** ** The two loops of the accumulation, key by key *)

Lemma add_nutrient_upd (i : Ingredient.t) (d : gmap string pynum) (k : string) (v : pynum) :
  d !! k = Some v ->
  add_nutrient i d k = (v' ← key_step guarded_step i k v; OK (<[k := v']> d)).
Proof.
  intros Hv. unfold add_nutrient, key_step, guarded_step.
  destruct (dict_getitem to_tagname k) as [t|e]; [simpl|reflexivity].
  destruct (Ingredient.calc_nutrient i t) as [c|e]; [simpl|reflexivity].
  destruct (truthy c) eqn:Hc.
  - destruct c as [c|]; [|discriminate].
    unfold dict_getitem at 1. rewrite Hv. reflexivity.
  - simpl. rewrite insert_id; auto.
Qed.

Lemma add_nutrient_unguarded_upd (i : Ingredient.t) (d : gmap string pynum) (k : string)
    (v : pynum) :
  d !! k = Some v ->
  add_nutrient_unguarded i d k = (v' ← key_step unguarded_step i k v; OK (<[k := v']> d)).
Proof.
  intros Hv. unfold add_nutrient_unguarded, key_step, unguarded_step.
  destruct (dict_getitem to_tagname k) as [t|e]; [simpl|reflexivity].
  destruct (Ingredient.calc_nutrient i t) as [c|e]; [simpl|reflexivity].
  destruct c as [c|].
  - unfold dict_getitem at 1. rewrite Hv. reflexivity.
  - simpl. rewrite insert_id; auto.
Qed.

Section IngredientLoop.
Variable step : pynum -> option float -> result pynum.
Variable body : Ingredient.t -> gmap string pynum -> string -> result (gmap string pynum).
Hypothesis body_upd : forall i d k v,
  d !! k = Some v -> body i d k = (v' ← key_step step i k v; OK (<[k := v']> d)).

Lemma foldM_ingredients (ingredients : list Ingredient.t) (d : gmap string pynum) :
  (forall k v, d !! k = Some v -> exists v', key_fold step k v ingredients = OK v') ->
  exists T, foldM (fun d i => foldM (body i) d (dict_keys d)) d ingredients = OK T /\
    (forall k v, d !! k = Some v ->
       exists v', key_fold step k v ingredients = OK v' /\ T !! k = Some v') /\
    (forall k, d !! k = None -> T !! k = None).
Proof.
  revert d. induction ingredients as [|i ings IH]; intros d Hok.
  - exists d. split; [reflexivity|]. split; [|auto].
    intros k v Hv. exists v. split; [reflexivity|exact Hv].
  - assert (forall k v, d !! k = Some v -> exists v1, key_step step i k v = OK v1) as Hstep.
    { intros k v Hv. destruct (Hok k v Hv) as [v' Hv'].
      unfold key_fold in Hv'. simpl in Hv'. inv_bind Hv'. eauto. }
    destruct (foldM_dict_keys (body i) (key_step step i) (body_upd i) d Hstep)
      as (d1 & Hd1 & Hin & Hout).
    assert (forall k v1, d1 !! k = Some v1 ->
              exists v, d !! k = Some v /\ key_step step i k v = OK v1) as Hback.
    { intros k v1 Hv1. destruct (d !! k) as [v|] eqn:Hv.
      - destruct (Hin k v Hv) as (w & Hw & Hd). exists v. split; [reflexivity|]. congruence.
      - rewrite (Hout k Hv) in Hv1. discriminate. }
    destruct (IH d1) as (T & HT & HTin & HTout).
    { intros k v1 Hv1. destruct (Hback k v1 Hv1) as (v & Hv & Hs).
      destruct (Hok k v Hv) as [v' Hv']. exists v'.
      unfold key_fold in Hv'. simpl in Hv'. rewrite Hs in Hv'. exact Hv'. }
    exists T. split; [|split].
    + simpl. rewrite Hd1. exact HT.
    + intros k v Hv. destruct (Hin k v Hv) as (v1 & Hs & Hd).
      destruct (HTin k v1 Hd) as (v' & Hv' & HTk). exists v'. split; [|exact HTk].
      unfold key_fold. simpl. rewrite Hs. exact Hv'.
    + intros k Hk. apply HTout, Hout, Hk.
Qed.
End IngredientLoop.

(** ** Dictionaries built from the items of another *)

Lemma mapM_result_raise {A B : Type} (f : A -> result B) (l : list A) (e : exn) :
  l <> [] -> (forall a, a ∈ l -> f a = Raise e) -> mapM_result f l = Raise e.
Proof.
  destruct l as [|a l]; [contradiction|]. intros _ H.
  simpl. rewrite (H a); [reflexivity|left].
Qed.

Section Comprehension.
Context {A B : Type}.
Variable entry : string * A -> result (string * B).
Variable val : string -> A -> result B.
Hypothesis entry_val : forall kv, entry kv = (b ← val kv.1 kv.2; OK (kv.1, b)).

Lemma mapM_entries (l : list (string * A)) :
  (forall k a, (k, a) ∈ l -> exists b, val k a = OK b) ->
  exists l', mapM_result entry l = OK l' /\ l'.*1 = l.*1 /\
    (forall k a, (k, a) ∈ l -> exists b, val k a = OK b /\ (k, b) ∈ l').
Proof.
  induction l as [|[k a] l IH]; intros Hok.
  - exists []. split; [reflexivity|]. split; [reflexivity|]. intros k a H. inversion H.
  - destruct (Hok k a) as [b Hb]; [left|].
    destruct IH as (l' & Hl' & Hfst & Hin).
    { intros k' a' H. apply Hok. right. exact H. }
    exists ((k, b) :: l'). split; [|split].
    + simpl. rewrite entry_val. simpl. rewrite Hb. simpl. rewrite Hl'. reflexivity.
    + rewrite !fmap_cons, Hfst. reflexivity.
    + intros k' a' H. apply elem_of_cons in H as [[= -> ->]|H].
      * exists b. split; [exact Hb|left].
      * destruct (Hin k' a' H) as (b' & Hb' & Hin'). exists b'. split; [exact Hb'|right; exact Hin'].
Qed.

Lemma dict_comprehension (d : gmap string A) :
  (forall k a, d !! k = Some a -> exists b, val k a = OK b) ->
  exists d' : gmap string B,
    (items ← mapM_result entry (dict_items d); OK (list_to_map items)) = OK d' /\
    (forall k a, d !! k = Some a -> exists b, val k a = OK b /\ d' !! k = Some b) /\
    (forall k, d !! k = None -> d' !! k = None).
Proof.
  intros Hok. unfold dict_items.
  destruct (mapM_entries (map_to_list d)) as (l' & Hl' & Hfst & Hin).
  { intros k a H. apply elem_of_map_to_list in H. eauto. }
  exists (list_to_map l'). split; [rewrite Hl'; reflexivity|]. split.
  - intros k a Ha. destruct (Hin k a) as (b & Hb & Hkb); [apply elem_of_map_to_list; exact Ha|].
    exists b. split; [exact Hb|]. apply elem_of_list_to_map; [|exact Hkb].
    rewrite Hfst. apply NoDup_fst_map_to_list.
  - intros k Hk. apply not_elem_of_list_to_map. rewrite Hfst.
    intros H. apply list_elem_of_fmap in H as ([k' a] & -> & H).
    apply elem_of_map_to_list in H. simpl in Hk. congruence.
Qed.

(** On a dictionary that is not empty, whose every entry raises [e]. *)
Lemma dict_comprehension_raise (d : gmap string A) (e : exn) :
  d <> ∅ -> (forall k a, d !! k = Some a -> val k a = Raise e) ->
  (items ← mapM_result entry (dict_items d); OK (list_to_map items)) = (Raise e : result (gmap string B)).
Proof.
  intros Hne Hr. rewrite (mapM_result_raise entry (dict_items d) e); [reflexivity| |].
  - unfold dict_items. intros H. apply Hne. apply map_to_list_empty_iff. exact H.
  - intros [k a] H. apply elem_of_map_to_list in H.
    rewrite entry_val. simpl. rewrite (Hr k a H). reflexivity.
Qed.
End Comprehension.

(** ** The tables of [calculate_total_nutrition] *)

Lemma Forall_reported (P : string -> Prop) :
  (forall k, k ∈ reported_keys -> P k) -> Forall P reported_keys.
Proof. intros H. apply Forall_forall. exact H. Qed.

Ltac each_reported H :=
  unfold reported_keys in H;
  repeat (apply elem_of_cons in H as [->|H]); [..|inversion H].

Lemma total_nutrition0_reported (k : string) :
  k ∈ reported_keys -> total_nutrition0 !! k = Some (PyInt 0).
Proof. intros H. each_reported H; reflexivity. Qed.

Lemma total_nutrition0_lookup (k : string) (v : pynum) :
  total_nutrition0 !! k = Some v -> k ∈ reported_keys /\ v = PyInt 0.
Proof.
  intros H. apply elem_of_list_to_map_2 in H.
  repeat (apply elem_of_cons in H as [[= -> ->]|H];
          [split; [apply (bool_decide_unpack _); vm_compute; exact I|reflexivity]|]).
  inversion H.
Qed.

Lemma reported_tables (k : string) :
  k ∈ reported_keys ->
  exists t, to_tagname !! k = Some t /\ units !! k = Some (fixed_unit k).
Proof. intros H. each_reported H; eexists; split; reflexivity. Qed.

(** ** [calc_nutrient] on a resolved ingredient *)

Lemma calc_nutrient_resolved (i : Ingredient.t) (t : string) :
  resolved i -> exists c, Ingredient.calc_nutrient i t = OK c.
Proof.
  intros Hu.
  destruct (decide (t ∈ FoodNutrition.tagname <$> Food.nutrition (Ingredient.matched_food i)))
    as [Hin|Hout].
  - apply list_elem_of_fmap in Hin as (n & -> & Hn).
    eexists. apply (calc_nutrient_entry i n Hu Hn).
  - exists None. apply calc_nutrient_no_entry.
    intros n Hn Heq. apply Hout. rewrite <- Heq. apply list_elem_of_fmap_2. exact Hn.
Qed.

(** ** The steps keep equal amounts equal *)

Lemma same_amount_trans (x y z : pynum) :
  same_amount x y -> same_amount y z -> same_amount x z.
Proof.
  intros [->|[Hx Hy]] [->|[Hy' Hz]]; try (left; reflexivity); right; auto.
Qed.

Lemma amount_ok_float (f : float) : amount_ok (PyFloat f).
Proof. right. eauto. Qed.

Lemma guarded_step_related : step_related guarded_step.
Proof.
  intros x y c Hx Hy Hs. unfold guarded_step.
  destruct (truthy c) eqn:Hc.
  - destruct c as [c|]; [|discriminate]. simpl in Hc. apply negb_true_iff in Hc.
    destruct (py_add_same_truthy x y c Hx Hy Hs Hc) as (x' & y' & Hx' & Hy' & <-).
    exists (PyFloat x'), (PyFloat x').
    repeat split; auto using amount_ok_float, same_amount_refl.
  - exists x, y. auto.
Qed.

Lemma unguarded_step_related : step_related unguarded_step.
Proof.
  intros x y c Hx Hy Hs. unfold guarded_step, unguarded_step.
  destruct c as [c|]; simpl; [|exists x, y; auto].
  destruct (is_zero c) eqn:Hc; simpl.
  - destruct (py_add_zero_same y c Hy Hc) as (y' & Hy' & Hsy).
    exists x, (PyFloat y'). repeat split; auto using amount_ok_float.
    eapply same_amount_trans; eauto.
  - destruct (py_add_same_truthy x y c Hx Hy Hs Hc) as (x' & y' & Hx' & Hy' & <-).
    exists (PyFloat x'), (PyFloat x').
    repeat split; auto using amount_ok_float, same_amount_refl.
Qed.

Lemma py_add_int_zero (y : pynum) :
  amount_ok y -> exists y', py_add y (PyInt 0) = OK y' /\ amount_ok y' /\ same_amount y y'.
Proof.
  intros [->|[f ->]].
  - exists (PyInt 0). split; [reflexivity|]. split; [left; reflexivity|apply same_amount_refl].
  - destruct (py_add_zero_same (PyFloat f) 0%float (amount_ok_float f) eq_refl)
      as (y' & Hy' & Hs).
    exists (PyFloat y'). split; [exact Hy'|]. split; [apply amount_ok_float|exact Hs].
Qed.

Lemma sum_step_related : step_related sum_step.
Proof.
  intros x y c Hx Hy Hs. unfold sum_step.
  destruct c as [c|].
  - exact (unguarded_step_related x y (Some c) Hx Hy Hs).
  - destruct (py_add_int_zero y Hy) as (y' & Hy' & Hok & Hsy).
    exists x, y'. repeat split; auto. eapply same_amount_trans; eauto.
Qed.

Lemma key_fold_cons (step : pynum -> option float -> result pynum) (k : string) (v : pynum)
    (i : Ingredient.t) (ingredients : list Ingredient.t) :
  key_fold step k v (i :: ingredients) =
    (v1 ← key_step step i k v; key_fold step k v1 ingredients).
Proof. reflexivity. Qed.

Lemma key_step_eq (step : pynum -> option float -> result pynum) (i : Ingredient.t)
    (k t : string) (v : pynum) (c : option float) :
  to_tagname !! k = Some t -> Ingredient.calc_nutrient i t = OK c ->
  key_step step i k v = step v c.
Proof.
  intros Ht Hc. unfold key_step, dict_getitem. rewrite Ht. simpl. rewrite Hc. reflexivity.
Qed.

(** Key by key, over resolved ingredients. *)
Lemma key_fold_related (alt : pynum -> option float -> result pynum) (k : string)
    (ingredients : list Ingredient.t) :
  step_related alt -> is_Some (to_tagname !! k) -> Forall resolved ingredients ->
  forall x y, amount_ok x -> amount_ok y -> same_amount x y ->
    exists x' y', key_fold guarded_step k x ingredients = OK x' /\
      key_fold alt k y ingredients = OK y' /\
      amount_ok x' /\ amount_ok y' /\ same_amount x' y'.
Proof.
  intros Halt [t Ht] Hres. unfold step_related in Halt.
  induction Hres as [|i ings Hi Hres IH]; intros x y Hx Hy Hs.
  - exists x, y. repeat split; auto.
  - destruct (calc_nutrient_resolved i t Hi) as [c Hc].
    destruct (Halt x y c Hx Hy Hs) as (x1 & y1 & Hx1 & Hy1 & Hokx & Hoky & Hs1).
    destruct (IH x1 y1 Hokx Hoky Hs1) as (x' & y' & Hx' & Hy' & H).
    exists x', y'. split; [|split; [|exact H]].
    + rewrite key_fold_cons, (key_step_eq _ i k t x c Ht Hc), Hx1. exact Hx'.
    + rewrite key_fold_cons, (key_step_eq _ i k t y c Ht Hc), Hy1. exact Hy'.
Qed.

(** The sum of the specification is the fold of [sum_step]. *)
Lemma key_fold_sum (k t : string) (ingredients : list Ingredient.t) (v : pynum) :
  to_tagname !! k = Some t -> Forall resolved ingredients ->
  key_fold sum_step k v ingredients =
    foldM (fun acc i => py_add acc (contribution i t)) v ingredients.
Proof.
  intros Ht Hres. revert v. induction Hres as [|i ings Hi Hres IH]; intros v; [reflexivity|].
  destruct (calc_nutrient_resolved i t Hi) as [c Hc].
  rewrite key_fold_cons, (key_step_eq _ i k t v c Ht Hc). simpl.
  unfold contribution. rewrite Hc. unfold sum_step.
  destruct c as [c|]; (destruct (py_add v _); simpl; [apply IH|reflexivity]).
Qed.

(** ** Binary64 facts: correctly rounded quotients *)

Section Binary64.
Local Open Scope Z_scope.

(** ** Rounding a quotient to the nearest integer *)

Lemma round_half_even_cases (x d : Z) :
  0 < d ->
  let q := Float64.round_half_even x d in
  (2 * (x - q * d) < d /\ - d < 2 * (x - q * d)) \/
  (2 * (x - q * d) = d /\ Z.even q = true) \/
  (2 * (x - q * d) = - d /\ Z.even q = true).
Proof.
  intros Hd. unfold Float64.round_half_even.
  pose proof (Z.div_mod x d ltac:(lia)) as Hx.
  pose proof (Z.mod_pos_bound x d Hd) as Hr.
  destruct (Z.compare_spec (2 * (x mod d)) d) as [He|Hl|Hg]; simpl.
  - destruct (Z.even (x / d)) eqn:Hev.
    + right. left. split; [nia|exact Hev].
    + right. right. split; [nia|].
      rewrite Z.even_add, Hev. reflexivity.
  - left. nia.
  - left. nia.
Qed.

Lemma round_half_even_near (x d : Z) :
  0 < d ->
  - d <= 2 * (x - Float64.round_half_even x d * d) <= d.
Proof.
  intros Hd. pose proof (round_half_even_cases x d Hd) as H. simpl in H. lia.
Qed.

Lemma round_half_even_unique (x d q : Z) :
  0 < d -> - d < 2 * (x - q * d) < d -> Float64.round_half_even x d = q.
Proof.
  intros Hd Hq. pose proof (round_half_even_near x d Hd) as H. nia.
Qed.

Lemma round_half_even_exact (d q : Z) :
  0 < d -> Float64.round_half_even (q * d) d = q.
Proof. intros Hd. apply round_half_even_unique; lia. Qed.

Lemma round_half_even_lower (x d a : Z) :
  0 < d -> a * d <= x -> a <= Float64.round_half_even x d.
Proof.
  intros Hd Ha. pose proof (round_half_even_near x d Hd) as H. nia.
Qed.

Lemma round_half_even_upper (x d b : Z) :
  0 < d -> x <= b * d -> Float64.round_half_even x d <= b.
Proof.
  intros Hd Hb. pose proof (round_half_even_near x d Hd) as H. nia.
Qed.

(** ** The binade of a quotient *)

Lemma pow2_pos (k : Z) : 0 <= k -> 0 < 2 ^ k.
Proof. intros. apply Z.pow_pos_nonneg; lia. Qed.

Lemma pow2_add (a b : Z) : 0 <= a -> 0 <= b -> 2 ^ (a + b) = 2 ^ a * 2 ^ b.
Proof. intros. apply Z.pow_add_r; lia. Qed.

Lemma ratio_ge_scale (n d j K : Z) :
  0 <= K -> 0 <= j + K -> ratio_ge n d j <-> d * 2 ^ (j + K) <= n * 2 ^ K.
Proof.
  intros HK HjK. unfold ratio_ge.
  destruct (Z.le_ge_cases 0 j) as [Hj|Hj].
  - rewrite Z.max_l, Z.max_r by lia. rewrite pow2_add by lia. simpl (2 ^ 0). 
    pose proof (pow2_pos K HK). pose proof (pow2_pos j Hj). nia.
  - rewrite Z.max_r, Z.max_l by lia. 
    replace K with ((-j) + (j + K)) at 2 by lia. rewrite (pow2_add (-j)) by lia.
    simpl (2 ^ 0).
    pose proof (pow2_pos (j + K) HjK). pose proof (pow2_pos (-j) ltac:(lia)). nia.
Qed.

Lemma ratio_ge_mono (n d j j' : Z) :
  0 < d -> j <= j' -> ratio_ge n d j' -> ratio_ge n d j.
Proof.
  intros Hd Hj H.
  set (K := Z.abs j + Z.abs j').
  apply (ratio_ge_scale n d j' K) in H; [|lia|lia].
  apply (ratio_ge_scale n d j K); [lia|lia|].
  replace (j' + K) with ((j + K) + (j' - j)) in H by lia.
  rewrite pow2_add in H by lia.
  pose proof (pow2_pos (j + K) ltac:(lia)). pose proof (pow2_pos (j' - j) ltac:(lia)).
  pose proof (pow2_pos K ltac:(lia)). nia.
Qed.

Lemma ilog2_spec (n d : Z) :
  0 < n -> 0 < d ->
  ratio_ge n d (Float64.ilog2 n d) /\ ~ ratio_ge n d (Float64.ilog2 n d + 1).
Proof.
  intros Hn Hd.
  pose proof (Z.log2_spec n Hn) as Ha. pose proof (Z.log2_spec d Hd) as Hb.
  pose proof (Z.log2_nonneg n) as Ha0. pose proof (Z.log2_nonneg d) as Hb0.
  unfold Float64.ilog2.
  set (a := Z.log2 n) in *. set (b := Z.log2 d) in *.
  assert ((if 0 <=? a - b then d * 2 ^ (a - b) <=? n else d <=? n * 2 ^ (- (a - b))) = true
          <-> ratio_ge n d (a - b)) as Htest.
  { unfold ratio_ge. destruct (Z.leb_spec 0 (a - b)).
    - rewrite Z.max_l, Z.max_r by lia. simpl (2 ^ 0). rewrite Z.leb_le. lia.
    - rewrite Z.max_r, Z.max_l by lia. simpl (2 ^ 0). rewrite Z.leb_le. lia. }
  replace (Z.succ a) with (a + 1) in Ha by lia. replace (Z.succ b) with (b + 1) in Hb by lia.
  pose proof (pow2_pos a Ha0). pose proof (pow2_pos b Hb0).
  assert (~ ratio_ge n d (a - b + 1)) as Hup.
  { intros H1. apply (ratio_ge_scale n d (a - b + 1) b) in H1; [|lia|lia].
    replace (a - b + 1 + b) with (a + 1) in H1 by lia. nia. }
  assert (ratio_ge n d (a - b - 1)) as Hlo.
  { apply (ratio_ge_scale n d (a - b - 1) (b + 1)); [lia|lia|].
    replace (a - b - 1 + (b + 1)) with a by lia. nia. }
  destruct (if 0 <=? a - b then _ else _) eqn:Ht.
  - split; [apply Htest; reflexivity|exact Hup].
  - split; [exact Hlo|]. replace (a - b - 1 + 1) with (a - b) by lia.
    intros H1. apply Htest in H1. discriminate.
Qed.

Lemma ilog2_unique (n d j : Z) :
  0 < n -> 0 < d -> ratio_ge n d j -> ~ ratio_ge n d (j + 1) -> Float64.ilog2 n d = j.
Proof.
  intros Hn Hd Hj Hj1. destruct (ilog2_spec n d Hn Hd) as [Hi Hi1].
  destruct (Z.lt_trichotomy (Float64.ilog2 n d) j) as [Hlt|[Heq|Hgt]]; [|exact Heq|].
  - exfalso. apply Hi1. apply (ratio_ge_mono n d _ j Hd); [lia|exact Hj].
  - exfalso. apply Hj1. apply (ratio_ge_mono n d _ (Float64.ilog2 n d) Hd); [lia|exact Hi].
Qed.

(** ** The mantissa of a quotient *)

Lemma fexp_eq (x : Z) : fexp prec emax x = Z.max (x - 53) (-1074).
Proof. reflexivity. Qed.

Lemma mantissa_eq (n d e : Z) :
  Float64.mantissa n d e =
    Float64.round_half_even (n * 2 ^ Z.max (- e) 0) (d * 2 ^ Z.max e 0).
Proof.
  unfold Float64.mantissa. destruct (Z.ltb_spec e 0).
  - rewrite Z.max_l, Z.max_r by lia. simpl (2 ^ 0). f_equal; lia.
  - rewrite Z.max_r, Z.max_l by lia. simpl (2 ^ 0). f_equal; lia.
Qed.

(** [d * 2 ^ (t + max (- e) 0) = d * 2 ^ max e 0 * 2 ^ (t - e)] *)
Lemma scale_split (e t : Z) :
  e <= t -> 2 ^ (t + Z.max (- e) 0) = 2 ^ Z.max e 0 * 2 ^ (t - e).
Proof.
  intros H. rewrite <- pow2_add by lia. f_equal. lia.
Qed.

Lemma mantissa_ge (n d e t : Z) :
  0 < d -> e <= t -> ratio_ge n d t -> 2 ^ (t - e) <= Float64.mantissa n d e.
Proof.
  intros Hd Het H. rewrite mantissa_eq.
  pose proof (pow2_pos (Z.max e 0) ltac:(lia)) as HB.
  apply round_half_even_lower; [nia|].
  apply (ratio_ge_scale n d t (Z.max (- e) 0)) in H; [|lia|lia].
  rewrite (scale_split e t Het) in H. lia.
Qed.

Lemma mantissa_le (n d e t : Z) :
  0 < d -> e <= t -> ~ ratio_ge n d t -> Float64.mantissa n d e <= 2 ^ (t - e).
Proof.
  intros Hd Het H. rewrite mantissa_eq.
  pose proof (pow2_pos (Z.max e 0) ltac:(lia)) as HB.
  apply round_half_even_upper; [nia|].
  rewrite (ratio_ge_scale n d t (Z.max (- e) 0)) in H; [|lia|lia].
  rewrite (scale_split e t Het) in H. lia.
Qed.

(** ** The number of binary digits *)

Lemma digits2_pos_size (p : positive) : digits2_pos p = Pos.size p.
Proof. induction p; simpl; congruence. Qed.

Lemma digits2_bounds (p : positive) :
  2 ^ (Zpos (digits2_pos p) - 1) <= Zpos p < 2 ^ Zpos (digits2_pos p).
Proof.
  rewrite digits2_pos_size. split.
  - pose proof (Pos.size_le p) as H.
    apply Pos2Z.pos_le_pos in H. rewrite Pos2Z.inj_pow in H.
    replace (Zpos (Pos.size p)) with (1 + (Zpos (Pos.size p) - 1)) in H by lia.
    rewrite pow2_add in H by lia. change (2 ^ 1) with 2 in H.
    change (Zpos p~0) with (2 * Zpos p) in H. lia.
  - pose proof (Pos.size_gt p) as H.
    apply Pos2Z.pos_lt_pos in H. rewrite Pos2Z.inj_pow in H. exact H.
Qed.

Lemma digits2_unique (p : positive) (k : Z) :
  2 ^ (k - 1) <= Zpos p < 2 ^ k -> Zpos (digits2_pos p) = k.
Proof.
  intros [Hlo Hhi]. pose proof (digits2_bounds p) as [Dlo Dhi].
  assert (0 < k) as Hk.
  { destruct (Z.lt_trichotomy 0 k) as [Hk|[<-|Hk]]; [assumption| |].
    - simpl in Hhi. lia.
    - rewrite (Z.pow_neg_r 2 k) in Hhi by lia. lia. }
  destruct (Z.lt_trichotomy (Zpos (digits2_pos p)) k) as [Hlt|[Heq|Hgt]]; [|exact Heq|].
  - exfalso. assert (2 ^ Zpos (digits2_pos p) <= 2 ^ (k - 1)) by (apply Z.pow_le_mono_r; lia). lia.
  - exfalso. assert (2 ^ k <= 2 ^ (Zpos (digits2_pos p) - 1)) by (apply Z.pow_le_mono_r; lia). lia.
Qed.

Lemma digits2_le (p : positive) (k : Z) :
  0 <= k -> Zpos p < 2 ^ k -> Zpos (digits2_pos p) <= k.
Proof.
  intros Hk Hp. pose proof (digits2_bounds p) as [Dlo _].
  destruct (Z.le_gt_cases (Zpos (digits2_pos p)) k) as [|Hgt]; [assumption|exfalso].
  assert (2 ^ k <= 2 ^ (Zpos (digits2_pos p) - 1)) by (apply Z.pow_le_mono_r; lia). lia.
Qed.

(** ** The float nearest to a quotient is a valid binary64 number *)

Lemma bounded_iff (p : positive) (e : Z) :
  bounded prec emax p e = true <->
  Z.max (Zpos (digits2_pos p) + e - 53) (-1074) = e /\ e <= 971.
Proof.
  unfold bounded, canonical_mantissa. rewrite andb_true_iff, Z.eqb_eq, Z.leb_le, fexp_eq.
  reflexivity.
Qed.

(** The mantissa and the exponent that [SF_of_ratio] settles on. *)
Lemma SF_of_ratio_cases (neg : bool) (n d : Z) :
  0 < n -> 0 < d ->
  let e := Float64.exponent n d in
  let m := Float64.mantissa n d e in
  (m = 0 /\ Float64.SF_of_ratio neg n d = S754_zero neg) \/
  (exists p, Zpos p = m /\ m < 2 ^ 53 /\
     Z.max (Zpos (digits2_pos p) + e - 53) (-1074) = e /\
     Float64.SF_of_ratio neg n d =
       if e <=? 971 then S754_finite neg p e else S754_infinity neg) \/
  (m = 2 ^ 53 /\ -1074 <= e /\
     Float64.SF_of_ratio neg n d =
       if e + 1 <=? 971 then S754_finite neg (2 ^ 52)%positive (e + 1) else S754_infinity neg).
Proof.
  intros Hn Hd e m.
  destruct (ilog2_spec n d Hn Hd) as [Hge Hlt].
  assert (e = Z.max (Float64.ilog2 n d + 1 - 53) (-1074)) as He by reflexivity.
  assert (0 <= m) as Hm0.
  { subst m. rewrite mantissa_eq. apply round_half_even_lower; [|].
    - pose proof (pow2_pos (Z.max e 0) ltac:(lia)). nia.
    - pose proof (pow2_pos (Z.max (- e) 0) ltac:(lia)). nia. }
  assert (m <= 2 ^ 53) as Hm53.
  { replace 53 with ((e + 53) - e) by lia. apply mantissa_le; [exact Hd|lia|].
    intros H. apply Hlt. apply (ratio_ge_mono n d _ (e + 53) Hd); [lia|exact H]. }
  assert (Float64.ilog2 n d - 52 >= -1074 -> 2 ^ 52 <= m) as Hnormal.
  { intros Hj. replace 52 with (Float64.ilog2 n d - e) by lia.
    apply mantissa_ge; [exact Hd|lia|exact Hge]. }
  assert (Float64.ilog2 n d - 52 < -1074 -> m <= 2 ^ 52) as Hsub.
  { intros Hj. replace 52 with ((e + 52) - e) by lia. apply mantissa_le; [exact Hd|lia|].
    intros H. apply Hlt. apply (ratio_ge_mono n d _ (e + 52) Hd); [lia|exact H]. }
  unfold Float64.SF_of_ratio. rewrite (proj2 (Z.leb_gt n 0) Hn).
  fold e. fold m.
  destruct (Z.eqb_spec m (2 ^ prec)) as [Heq|Hne].
  - right. right. change (2 ^ prec) with (2 ^ 53) in Heq.
    split; [exact Heq|]. split; [lia|]. reflexivity.
  - change (2 ^ prec) with (2 ^ 53) in Hne.
    destruct m as [|p|p] eqn:Hm; [left; auto| |lia].
    right. left. exists p. split; [reflexivity|]. split; [lia|]. split; [|reflexivity].
    destruct (Z.lt_ge_cases (Float64.ilog2 n d - 52) (-1074)) as [Hj|Hj].
    + assert (Zpos (digits2_pos p) <= 53).
      { apply digits2_le; [lia|]. specialize (Hsub Hj). lia. }
      lia.
    + assert (Zpos (digits2_pos p) = 53).
      { apply digits2_unique. change (53 - 1) with 52. specialize (Hnormal ltac:(lia)). lia. }
      lia.
Qed.

Lemma SF_of_ratio_valid (neg : bool) (n d : Z) :
  0 < d -> valid_binary (Float64.SF_of_ratio neg n d) = true.
Proof.
  intros Hd. destruct (Z.lt_ge_cases 0 n) as [Hn|Hn].
  - destruct (SF_of_ratio_cases neg n d Hn Hd) as [[_ ->]|[(p & _ & _ & Hc & ->)|(_ & He & ->)]].
    + reflexivity.
    + destruct (Z.leb_spec (Float64.exponent n d) 971); [|reflexivity].
      apply bounded_iff. auto.
    + destruct (Z.leb_spec (Float64.exponent n d + 1) 971); [|reflexivity].
      apply bounded_iff. split; [|assumption].
      change (Zpos (digits2_pos (2 ^ 52))) with 53. lia.
  - unfold Float64.SF_of_ratio. rewrite (proj2 (Z.leb_le n 0)) by lia. reflexivity.
Qed.

Lemma Prim2SF_of_ratio (neg : bool) (n d : Z) :
  0 < d -> Prim2SF (Float64.of_ratio neg n d) = Float64.SF_of_ratio neg n d.
Proof. intros Hd. apply Prim2SF_SF2Prim, SF_of_ratio_valid, Hd. Qed.

(** A binary64 number is the nearest to itself. *)
Lemma SF_of_ratio_exact (neg : bool) (n d : Z) (p : positive) (e : Z) :
  0 < d -> bounded prec emax p e = true ->
  n * 2 ^ Z.max (- e) 0 = Zpos p * (d * 2 ^ Z.max e 0) ->
  Float64.SF_of_ratio neg n d = S754_finite neg p e.
Proof.
  intros Hd Hb Hv. apply bounded_iff in Hb as [Hc He].
  pose proof (pow2_pos (Z.max (- e) 0) ltac:(lia)) as HA.
  pose proof (pow2_pos (Z.max e 0) ltac:(lia)) as HB.
  pose proof (digits2_bounds p) as [Dlo Dhi].
  set (D := Zpos (digits2_pos p)) in *.
  assert (0 < n) as Hn by nia.
  assert (Float64.ilog2 n d = D + e - 1) as Hj.
  { apply ilog2_unique; auto.
    - apply (ratio_ge_scale n d _ (Z.max (- e) 0)); [lia|lia|].
      rewrite (scale_split e) by lia. rewrite Hv.
      replace (D + e - 1 - e) with (D - 1) by lia. nia.
    - rewrite (ratio_ge_scale n d _ (Z.max (- e) 0)); [|lia|lia].
      rewrite (scale_split e) by lia. rewrite Hv.
      replace (D + e - 1 + 1 - e) with D by lia. nia. }
  assert (Float64.exponent n d = e) as Hexp.
  { unfold Float64.exponent. rewrite Hj, fexp_eq. lia. }
  assert (Float64.mantissa n d e = Zpos p) as Hm.
  { rewrite mantissa_eq, Hv. apply round_half_even_exact. nia. }
  assert (Zpos p < 2 ^ 53) as H53.
  { assert (2 ^ D <= 2 ^ 53) by (apply Z.pow_le_mono_r; lia). lia. }
  unfold Float64.SF_of_ratio. rewrite (proj2 (Z.leb_gt n 0) Hn), Hexp, Hm.
  change (2 ^ prec) with (2 ^ 53).
  rewrite (proj2 (Z.eqb_neq _ _)) by lia.
  change (emax - prec) with 971. rewrite (proj2 (Z.leb_le e 971) He). reflexivity.
Qed.

(** ** Rounding to two decimals *)

Lemma hundredths_nonneg (p : positive) (e : Z) : 0 <= Float64.hundredths p e.
Proof.
  unfold Float64.hundredths. destruct (Z.ltb_spec e 0).
  - pose proof (pow2_pos (- e) ltac:(lia)).
    apply round_half_even_lower; [assumption|lia].
  - pose proof (pow2_pos e ltac:(lia)). nia.
Qed.

(** The float nearest to a number of hundredths has that number of
    hundredths, or is the float nearest to its own. *)
Lemma SF_of_ratio_hundredths (neg : bool) (n : Z) (p : positive) (e : Z) :
  0 < n ->
  Float64.SF_of_ratio neg n 100 = S754_finite neg p e ->
  Float64.SF_of_ratio neg (Float64.hundredths p e) 100 = S754_finite neg p e.
Proof.
  intros Hn Hsf.
  assert (bounded prec emax p e = true) as Hb.
  { pose proof (SF_of_ratio_valid neg n 100 ltac:(lia)) as Hv. rewrite Hsf in Hv. exact Hv. }
  pose proof Hb as Hb'. apply bounded_iff in Hb' as [Hc He].
  pose proof (digits2_bounds p) as [Dlo Dhi].
  (* the distance from [n / 100] to [p * 2 ^ e], for a negative [e] *)
  assert (e < 0 -> -100 <= 2 * (n * 2 ^ (- e) - Zpos p * 100) <= 100) as Hnear.
  { intros He0.
    destruct (SF_of_ratio_cases neg n 100 Hn ltac:(lia))
      as [[_ Hz]|[(p' & Hp' & _ & _ & Hr)|(Hm & _ & Hr)]].
    - rewrite Hsf in Hz. discriminate.
    - rewrite Hsf in Hr. destruct (Float64.exponent n 100 <=? 971); [|discriminate].
      injection Hr as <- He'. rewrite <- He' in Hp'.
      rewrite mantissa_eq in Hp'. rewrite Z.max_l, Z.max_r in Hp' by lia.
      pose proof (round_half_even_near (n * 2 ^ (- e)) (100 * 2 ^ 0) ltac:(simpl; lia)) as H.
      rewrite <- Hp' in H. simpl (2 ^ 0) in H. lia.
    - rewrite Hsf in Hr. destruct (Float64.exponent n 100 + 1 <=? 971); [|discriminate].
      injection Hr as -> He'.
      assert (Float64.exponent n 100 = e - 1) as He1 by lia. rewrite He1 in Hm.
      rewrite mantissa_eq in Hm. rewrite Z.max_l, Z.max_r in Hm by lia.
      pose proof (round_half_even_near (n * 2 ^ (- (e - 1))) (100 * 2 ^ 0) ltac:(simpl; lia)) as H.
      rewrite Hm in H. simpl (2 ^ 0) in H.
      replace (- (e - 1)) with ((- e) + 1) in H by lia.
      rewrite pow2_add in H by lia. change (2 ^ 1) with 2 in H.
      change (Zpos (2 ^ 52)) with (2 ^ 52). change (2 ^ 53) with (2 * 2 ^ 52) in H. lia. }
  unfold Float64.hundredths. destruct (Z.ltb_spec e 0) as [He0|He0].
  - specialize (Hnear He0).
    pose proof (pow2_pos (- e) ltac:(lia)) as Hpow.
    destruct (Z.le_gt_cases e (-7)) as [He7|He7].
    + (* the hundredths of [p * 2 ^ e] are [n] *)
      assert (2 ^ 7 <= 2 ^ (- e)) as H7 by (apply Z.pow_le_mono_r; lia).
      change (2 ^ 7) with 128 in H7.
      rewrite (round_half_even_unique (Zpos p * 100) (2 ^ (- e)) n); [exact Hsf|lia|lia].
    + (* [p * 2 ^ e] is the float nearest to its hundredths *)
      set (n' := Float64.round_half_even (Zpos p * 100) (2 ^ (- e))).
      pose proof (round_half_even_near (Zpos p * 100) (2 ^ (- e)) Hpow) as Hn'. fold n' in Hn'.
      assert (2 ^ (- e) <= 2 ^ 6) as H6 by (apply Z.pow_le_mono_r; lia).
      change (2 ^ 6) with 64 in H6.
      assert (Zpos (digits2_pos p) = 53) as HD by lia.
      rewrite HD in Dlo, Dhi. change (53 - 1) with 52 in Dlo.
      destruct (Z.eq_dec (Zpos p) (2 ^ 52)) as [Hp|Hp].
      * apply SF_of_ratio_exact; [lia|exact Hb|].
        rewrite Z.max_l, Z.max_r by lia. simpl (2 ^ 0).
        assert (2 ^ (52 + e) * 2 ^ (- e) = 2 ^ 52) as H52.
        { rewrite <- pow2_add by lia. f_equal. lia. }
        assert (n' = 100 * 2 ^ (52 + e)) as ->.
        { apply round_half_even_unique; [exact Hpow|]. rewrite Hp. nia. }
        rewrite Hp. nia.
      * assert (0 < n') as Hn0 by nia.
        assert (Float64.ilog2 n' 100 = 52 + e) as Hj.
        { apply ilog2_unique; [exact Hn0|lia| |].
          - apply (ratio_ge_scale n' 100 _ (- e)); [lia|lia|].
            replace (52 + e + - e) with 52 by lia. lia.
          - rewrite (ratio_ge_scale n' 100 _ (- e)); [|lia|lia].
            replace (52 + e + 1 + - e) with 53 by lia.
            change (2 ^ 53) with (2 * 2 ^ 52). lia. }
        assert (Float64.exponent n' 100 = e) as Hexp.
        { unfold Float64.exponent. rewrite Hj, fexp_eq. lia. }
        assert (Float64.mantissa n' 100 e = Zpos p) as Hm.
        { rewrite mantissa_eq. rewrite Z.max_l, Z.max_r by lia. simpl (2 ^ 0).
          apply round_half_even_unique; lia. }
        unfold Float64.SF_of_ratio. rewrite (proj2 (Z.leb_gt n' 0) Hn0), Hexp, Hm.
        change (2 ^ prec) with (2 * 2 ^ 52).
        rewrite (proj2 (Z.eqb_neq _ _)) by lia.
        change (emax - prec) with 971. rewrite (proj2 (Z.leb_le e 971) He). reflexivity.
  - apply SF_of_ratio_exact; [lia|exact Hb|].
    rewrite Z.max_r, Z.max_l by lia. simpl (2 ^ 0). lia.
Qed.

(** Rounding to two decimals is idempotent. *)
Lemma round2_idempotent (x : float) :
  Float64.round2 (Float64.round2 x) = Float64.round2 x.
Proof.
  destruct (Prim2SF x) as [s|s| |s m e] eqn:Hx.
  1-3: assert (Float64.round2 x = x) as -> by (unfold Float64.round2; rewrite Hx; reflexivity);
       unfold Float64.round2; rewrite Hx; reflexivity.
  assert (Float64.round2 x = Float64.of_ratio s (Float64.hundredths m e) 100) as ->
    by (unfold Float64.round2; rewrite Hx; reflexivity).
  unfold Float64.round2. rewrite Prim2SF_of_ratio by lia.
  pose proof (hundredths_nonneg m e) as Hn.
  destruct (Float64.SF_of_ratio s (Float64.hundredths m e) 100) as [s'|s'| |s' p e'] eqn:Hsf;
    try reflexivity.
  assert (0 < Float64.hundredths m e) as Hpos.
  { destruct (Z.eq_dec (Float64.hundredths m e) 0) as [H0|H0]; [|lia].
    rewrite H0 in Hsf. unfold Float64.SF_of_ratio in Hsf. simpl in Hsf. discriminate. }
  assert (s' = s) as ->.
  { destruct (SF_of_ratio_cases s _ 100 Hpos ltac:(lia))
      as [[_ Hz]|[(p' & _ & _ & _ & Hr)|(_ & _ & Hr)]]; rewrite Hsf in *.
    - discriminate.
    - destruct (_ <=? 971); [injection Hr; auto|discriminate].
    - destruct (_ <=? 971); [injection Hr; auto|discriminate]. }
  unfold Float64.of_ratio. rewrite (SF_of_ratio_hundredths s _ p e' Hpos Hsf), Hsf. reflexivity.
Qed.

(** ** Division by one *)

Lemma div_eucl_mul (q b : Z) : 0 < b -> Z.div_eucl (q * b) b = (q, 0).
Proof.
  intros Hb. pose proof (Z.div_mul q b ltac:(lia)) as Hq.
  pose proof (Z.mod_mul q b ltac:(lia)) as Hr.
  unfold Z.div, Z.modulo in *. destruct (Z.div_eucl (q * b) b). congruence.
Qed.

Lemma shr_fexp_canonical (m : positive) (e : Z) :
  Z.max (Zpos (digits2_pos m) + e - 53) (-1074) = e ->
  shr_fexp prec emax (Zpos m) e loc_Exact =
    ({| shr_m := Zpos m; shr_r := false; shr_s := false |}, e).
Proof.
  intros Hc. unfold shr_fexp. rewrite fexp_eq.
  change (Zdigits2 (Zpos m)) with (Zpos (digits2_pos m)).
  replace (Z.max (Zpos (digits2_pos m) + e - 53) (-1074) - e) with 0 by lia.
  reflexivity.
Qed.

Lemma shr_fexp_even (m : positive) (e : Z) :
  Zpos (digits2_pos m) = 53 -> -1074 < e ->
  shr_fexp prec emax (Zpos m~0) (e - 1) loc_Exact =
    ({| shr_m := Zpos m; shr_r := false; shr_s := false |}, e).
Proof.
  intros HD He. unfold shr_fexp. rewrite fexp_eq.
  change (Zdigits2 (Zpos m~0)) with (Zpos (Pos.succ (digits2_pos m))).
  rewrite Pos2Z.inj_succ.
  replace (Z.max (Z.succ (Zpos (digits2_pos m)) + (e - 1) - 53) (-1074) - (e - 1)) with 1 by lia.
  simpl. f_equal. lia.
Qed.

Lemma binary_round_aux_canonical (s : bool) (m : positive) (e : Z)
    (mrs : shr_record) :
  Z.max (Zpos (digits2_pos m) + e - 53) (-1074) = e -> e <= 971 ->
  mrs = {| shr_m := Zpos m; shr_r := false; shr_s := false |} ->
  (let '(mrs'', e'') :=
     shr_fexp prec emax (round_nearest_even (shr_m mrs) (loc_of_shr_record mrs)) e loc_Exact in
   match shr_m mrs'' with
   | Z0 => S754_zero s
   | Zpos m => if e'' <=? emax - prec then S754_finite s m e'' else S754_infinity s
   | Zneg _ => S754_nan
   end) = S754_finite s m e.
Proof.
  intros Hc He ->. simpl. rewrite (shr_fexp_canonical m e Hc). simpl.
  change (emax - prec) with 971. rewrite (proj2 (Z.leb_le e 971) He). reflexivity.
Qed.

(** Dividing a binary64 number by [1.0] gives it back. *)
Lemma SF64div_one (x : spec_float) :
  valid_binary x = true -> SF64div x (S754_finite false (2 ^ 52)%positive (-52)) = x.
Proof.
  destruct x as [s|s| |s m e]; intros Hv; try reflexivity; try (destruct s; reflexivity).
  simpl in Hv. apply bounded_iff in Hv as [Hc He].
  pose proof (digits2_bounds m) as [Dlo Dhi].
  unfold SF64div, SFdiv, SFdiv_core_binary.
  change (Zdigits2 (Zpos m)) with (Zpos (digits2_pos m)).
  change (Zdigits2 (Zpos (2 ^ 52))) with 53.
  rewrite fexp_eq. rewrite xorb_false_r.
  destruct (Z.eq_dec e (-1074)) as [->|Hne].
  - replace (Z.min (Z.max (Zpos (digits2_pos m) + -1074 - (53 + -52) - 53) (-1074)) (-1074 - -52))
      with (-1074) by lia.
    change (-1074 - -52 - -1074) with 52.
    rewrite Z.shiftl_mul_pow2 by lia.
    change (IntDef.Z.div_eucl (Zpos m * 2 ^ 52) (Zpos (2 ^ 52)))
      with (Z.div_eucl (Zpos m * 2 ^ 52) (2 ^ 52)).
    rewrite (div_eucl_mul (Zpos m) (2 ^ 52)) by lia.
    change (new_location (Zpos (2 ^ 52)) 0) with loc_Exact.
    unfold binary_round_aux. rewrite (shr_fexp_canonical m (-1074) Hc).
    apply binary_round_aux_canonical; auto.
  - assert (Zpos (digits2_pos m) = 53) as HD by lia.
    replace (Z.min (Z.max (Zpos (digits2_pos m) + e - (53 + -52) - 53) (-1074)) (e - -52))
      with (e - 1) by lia.
    replace (e - -52 - (e - 1)) with 53 by lia.
    rewrite Z.shiftl_mul_pow2 by lia.
    change (2 ^ 53) with (2 * 2 ^ 52).
    replace (Zpos m * (2 * 2 ^ 52)) with (Zpos m~0 * 2 ^ 52) by lia.
    change (IntDef.Z.div_eucl (Zpos m~0 * 2 ^ 52) (Zpos (2 ^ 52)))
      with (Z.div_eucl (Zpos m~0 * 2 ^ 52) (2 ^ 52)).
    rewrite (div_eucl_mul (Zpos m~0) (2 ^ 52)) by lia.
    change (new_location (Zpos (2 ^ 52)) 0) with loc_Exact.
    unfold binary_round_aux. rewrite (shr_fexp_even m e HD ltac:(lia)).
    apply binary_round_aux_canonical; auto.
Qed.

Lemma div_one (x : float) : (x / 1)%float = x.
Proof.
  apply Prim2SF_inj. rewrite div_spec.
  change (Prim2SF 1) with (S754_finite false (2 ^ 52)%positive (-52)).
  apply SF64div_one, Prim2SF_valid.
Qed.

(** ** Integers as floats *)

Lemma is_infinity_SF (f : float) :
  is_infinity f = true <-> exists s, Prim2SF f = S754_infinity s.
Proof.
  unfold is_infinity. rewrite FloatAxioms.eqb_spec, abs_spec.
  change (Prim2SF infinity) with (S754_infinity false).
  destruct (Prim2SF f) as [s|s| |s m e]; simpl; split.
  - discriminate.
  - intros [s0 H]. discriminate.
  - eauto.
  - reflexivity.
  - discriminate.
  - intros [s0 H]. discriminate.
  - discriminate.
  - intros [s0 H]. discriminate.
Qed.

(** An integer ratio of at least one is not rounded to zero. *)
Lemma SF_of_ratio_ge_one (neg : bool) (n d : Z) :
  0 < d -> d <= n ->
  (exists p e, Float64.SF_of_ratio neg n d = S754_finite neg p e) \/
  (Float64.SF_of_ratio neg n d = S754_infinity neg /\ 2 ^ 1023 * d <= n).
Proof.
  intros Hd Hdn. assert (0 < n) as Hn by lia.
  destruct (ilog2_spec n d Hn Hd) as [Hge Hlt].
  assert (ratio_ge n d 0) as H0.
  { apply (ratio_ge_scale n d 0 0); [lia|lia|]. change (2 ^ (0 + 0)) with 1.
    change (2 ^ 0) with 1. lia. }
  assert (0 <= Float64.ilog2 n d) as Hj.
  { destruct (Z.le_gt_cases 0 (Float64.ilog2 n d)) as [|Hneg]; [assumption|exfalso].
    apply Hlt. apply (ratio_ge_mono n d _ 0 Hd); [lia|exact H0]. }
  assert (Float64.exponent n d = Float64.ilog2 n d - 52) as He.
  { unfold Float64.exponent. rewrite fexp_eq. lia. }
  assert (2 ^ 52 <= Float64.mantissa n d (Float64.exponent n d)) as Hm.
  { replace 52 with (Float64.ilog2 n d - Float64.exponent n d) at 1 by lia.
    apply mantissa_ge; [exact Hd|lia|exact Hge]. }
  assert (971 < Float64.exponent n d + 1 -> 2 ^ 1023 * d <= n) as Hbig.
  { intros Hover.
    apply (ratio_ge_mono n d 1023) in Hge; [|exact Hd|lia].
    apply (proj1 (ratio_ge_scale n d 1023 0 ltac:(lia) ltac:(lia))) in Hge.
    change (2 ^ (1023 + 0)) with (2 ^ 1023) in Hge. change (2 ^ 0) with 1 in Hge. lia. }
  destruct (SF_of_ratio_cases neg n d Hn Hd) as [[Hz _]|[(p & _ & _ & _ & ->)|(_ & _ & ->)]].
  - lia.
  - destruct (Z.leb_spec (Float64.exponent n d) 971); [left; eauto|right].
    split; [reflexivity|]. apply Hbig. lia.
  - destruct (Z.leb_spec (Float64.exponent n d + 1) 971); [left; eauto|right].
    split; [reflexivity|]. apply Hbig. lia.
Qed.

Lemma float_of_int_not_zero (n : Z) (g : float) :
  float_of_int n = OK g -> n <> 0 -> is_zero g = false.
Proof.
  unfold float_of_int, Float64.of_Z. intros H Hn.
  destruct (is_infinity _); [discriminate|]. injection H as <-.
  apply is_zero_false_SF. intros s. rewrite Prim2SF_of_ratio by lia.
  destruct (SF_of_ratio_ge_one (n <? 0) (Z.abs n) 1 ltac:(lia) ltac:(lia))
    as [(p & e & ->)|[-> _]]; discriminate.
Qed.

Lemma float_of_int_small (n : Z) :
  Z.abs n < 2 ^ 1023 -> exists g, float_of_int n = OK g.
Proof.
  intros Hn. unfold float_of_int, Float64.of_Z.
  destruct (is_infinity _) eqn:Hinf; [exfalso|eauto].
  apply is_infinity_SF in Hinf as [s Hs]. rewrite Prim2SF_of_ratio in Hs by lia.
  destruct (Z.eq_dec n 0) as [->|Hne]; [discriminate|].
  destruct (SF_of_ratio_ge_one (n <? 0) (Z.abs n) 1 ltac:(lia) ltac:(lia))
    as [(p & e & Hf)|[_ Hbig]]; [congruence|lia].
Qed.

Lemma float_of_int_one : float_of_int 1 = OK 1%float.
Proof. reflexivity. Qed.

End Binary64.

(** ** The totals, key by key *)

Lemma round_entry_val (kv : string * pynum) :
  round_entry kv = (b ← rounded_value kv.1 kv.2; OK (kv.1, b)).
Proof.
  unfold round_entry, rounded_value. destruct (dict_getitem units kv.1); reflexivity.
Qed.

Lemma serving_entry_val (servings : Z) (kt : string * (pynum * string)) :
  serving_entry servings kt = (b ← serving_value servings kt.1 kt.2; OK (kt.1, b)).
Proof.
  unfold serving_entry, serving_value. destruct (py_truediv _ _); reflexivity.
Qed.

Lemma amount_ok_zero : amount_ok (PyInt 0).
Proof. left. reflexivity. Qed.

Section Pipeline.
Variable step : pynum -> option float -> result pynum.
Variable body : Ingredient.t -> gmap string pynum -> string -> result (gmap string pynum).
Hypothesis body_upd : forall i d k v,
  d !! k = Some v -> body i d k = (v' ← key_step step i k v; OK (<[k := v']> d)).
Hypothesis step_ok : step_related step.

(** The accumulation followed by the rounding loop. *)
Lemma pipeline_totals (ingredients : list Ingredient.t) :
  Forall resolved ingredients ->
  exists T : gmap string (pynum * string),
    (total_nutrition ←
       foldM (fun d i => foldM (body i) d (dict_keys d)) total_nutrition0 ingredients;
     rounded ← mapM_result round_entry (dict_items total_nutrition);
     OK (list_to_map rounded)) = OK T /\
    (forall k, k ∈ reported_keys ->
       exists v, key_fold step k (PyInt 0) ingredients = OK v /\ amount_ok v /\
         T !! k = Some (py_round2 v, fixed_unit k)) /\
    (forall k, k ∉ reported_keys -> T !! k = None).
Proof.
  intros Hres.
  assert (forall k, k ∈ reported_keys ->
            exists v, key_fold step k (PyInt 0) ingredients = OK v /\ amount_ok v) as Hfold.
  { intros k Hk. destruct (reported_tables k Hk) as (t & Ht & _).
    destruct (key_fold_related step k ingredients step_ok ltac:(eauto) Hres
                (PyInt 0) (PyInt 0) amount_ok_zero amount_ok_zero (same_amount_refl _))
      as (x' & y' & _ & Hy' & _ & Hok & _).
    eauto. }
  destruct (foldM_ingredients step body body_upd ingredients total_nutrition0)
    as (T0 & HT0 & Hin & Hout).
  { intros k v Hv. apply total_nutrition0_lookup in Hv as [Hk ->].
    destruct (Hfold k Hk) as (v' & Hv' & _). eauto. }
  assert (forall k v, T0 !! k = Some v ->
            k ∈ reported_keys /\ key_fold step k (PyInt 0) ingredients = OK v) as HT0inv.
  { intros k v Hv. destruct (total_nutrition0 !! k) as [v0|] eqn:H0.
    - pose proof (total_nutrition0_lookup k v0 H0) as [Hk ->].
      destruct (Hin k (PyInt 0) H0) as (v' & Hv' & HTk). split; [exact Hk|congruence].
    - rewrite (Hout k H0) in Hv. discriminate. }
  destruct (dict_comprehension round_entry rounded_value round_entry_val T0)
    as (T & HT & HTin & HTout).
  { intros k v Hv. destruct (HT0inv k v Hv) as [Hk _].
    destruct (reported_tables k Hk) as (t & _ & Hu).
    unfold rounded_value, dict_getitem. rewrite Hu. simpl. eauto. }
  exists T. split; [|split].
  - rewrite HT0. simpl. exact HT.
  - intros k Hk. destruct (Hfold k Hk) as (v & Hv & Hok).
    exists v. split; [exact Hv|]. split; [exact Hok|].
    destruct (Hin k (PyInt 0) (total_nutrition0_reported k Hk)) as (v' & Hv' & HTk).
    assert (v' = v) as -> by congruence.
    destruct (HTin k v HTk) as (b & Hb & HTb).
    destruct (reported_tables k Hk) as (t & _ & Hu).
    unfold rounded_value, dict_getitem in Hb. rewrite Hu in Hb. simpl in Hb.
    injection Hb as <-. exact HTb.
  - intros k Hk. apply HTout. destruct (T0 !! k) as [v|] eqn:Hv; [|reflexivity].
    destruct (HT0inv k v Hv) as [Hk' _]. contradiction.
Qed.
End Pipeline.

Lemma total_nutrition_keys (ingredients : list Ingredient.t) :
  Forall resolved ingredients ->
  exists T, calculate_total_nutrition ingredients = OK T /\
    (forall k, k ∈ reported_keys ->
       exists v, key_fold guarded_step k (PyInt 0) ingredients = OK v /\ amount_ok v /\
         T !! k = Some (py_round2 v, fixed_unit k)) /\
    (forall k, k ∉ reported_keys -> T !! k = None).
Proof.
  exact (pipeline_totals guarded_step add_nutrient add_nutrient_upd guarded_step_related
           ingredients).
Qed.

Lemma total_nutrition_unguarded_keys (ingredients : list Ingredient.t) :
  Forall resolved ingredients ->
  exists T, calculate_total_nutrition_unguarded ingredients = OK T /\
    (forall k, k ∈ reported_keys ->
       exists v, key_fold unguarded_step k (PyInt 0) ingredients = OK v /\ amount_ok v /\
         T !! k = Some (py_round2 v, fixed_unit k)) /\
    (forall k, k ∉ reported_keys -> T !! k = None).
Proof.
  exact (pipeline_totals unguarded_step add_nutrient_unguarded add_nutrient_unguarded_upd
           unguarded_step_related ingredients).
Qed.

(** ** Division of a total by the number of servings *)

Lemma amount_ok_round2 (v : pynum) : amount_ok v -> amount_ok (py_round2 v).
Proof. intros [->|[f ->]]; [left; reflexivity|right; simpl; eauto]. Qed.

Lemma py_truediv_int_zero (n : Z) :
  n <> 0%Z -> exists q, py_truediv (PyInt 0) (PyInt n) = OK (PyFloat q) /\ is_zero q = true.
Proof.
  intros Hn. unfold py_truediv. rewrite (proj2 (Z.eqb_neq n 0) Hn).
  change (Float64.of_ratio (xorb (0 <? 0)%Z (n <? 0)%Z) (Z.abs 0) (Z.abs n))
    with (SF2Prim (S754_zero (n <? 0)%Z)).
  destruct (n <? 0)%Z; eexists; split; reflexivity.
Qed.

Lemma py_truediv_float (f g : float) (n : Z) :
  float_of_int n = OK g -> n <> 0%Z ->
  py_truediv (PyFloat f) (PyInt n) = OK (PyFloat (f / g)).
Proof.
  intros Hg Hn. unfold py_truediv. simpl. rewrite Hg. simpl.
  unfold float_truediv. rewrite (float_of_int_not_zero n g Hg Hn). reflexivity.
Qed.

Lemma py_truediv_amount (a : pynum) (g : float) (n : Z) :
  amount_ok a -> float_of_int n = OK g -> n <> 0%Z ->
  exists q, py_truediv a (PyInt n) = OK (PyFloat q).
Proof.
  intros [->|[f ->]] Hg Hn.
  - destruct (py_truediv_int_zero n Hn) as (q & Hq & _). eauto.
  - rewrite (py_truediv_float f g n Hg Hn). eauto.
Qed.

Lemma py_truediv_by_zero (a : pynum) : py_truediv a (PyInt 0) = Raise ZeroDivisionError.
Proof. destruct a; reflexivity. Qed.

(** The per-serving dictionary, key by key, for a divisor that converts to a
    float and is not zero. *)
Lemma serving_nutrition_keys (ingredients : list Ingredient.t)
    (total : gmap string (pynum * string)) (n : Z) (g : float) :
  Forall resolved ingredients -> calculate_total_nutrition ingredients = OK total ->
  float_of_int n = OK g -> n <> 0%Z ->
  exists r, calculate_serving_nutrition total n = OK r /\
    (forall k, k ∈ reported_keys ->
       exists a q, amount_ok a /\ total !! k = Some (py_round2 a, fixed_unit k) /\
         py_truediv (py_round2 a) (PyInt n) = OK q /\
         r !! k = Some (py_round2 q, fixed_unit k)) /\
    (forall k, k ∉ reported_keys -> total !! k = None /\ r !! k = None).
Proof.
  intros Hres Htotal Hg Hn.
  destruct (total_nutrition_keys ingredients Hres) as (T & HT & Hin & Hout).
  assert (T = total) as -> by congruence.
  assert (forall k t, total !! k = Some t ->
            k ∈ reported_keys /\ exists a, amount_ok a /\ t = (py_round2 a, fixed_unit k)) as Hinv.
  { intros k t Ht. destruct (decide (k ∈ reported_keys)) as [Hk|Hk].
    - split; [exact Hk|]. destruct (Hin k Hk) as (v & _ & Hok & Hv).
      exists v. split; [exact Hok|congruence].
    - rewrite (Hout k Hk) in Ht. discriminate. }
  destruct (dict_comprehension (serving_entry n) (serving_value n) (serving_entry_val n) total)
    as (r & Hr & Hrin & Hrout).
  { intros k t Ht. destruct (Hinv k t Ht) as (_ & a & Hok & ->).
    destruct (py_truediv_amount (py_round2 a) g n (amount_ok_round2 a Hok) Hg Hn) as [q Hq].
    unfold serving_value. simpl. rewrite Hq. simpl. eauto. }
  exists r. split; [exact Hr|]. split.
  - intros k Hk. destruct (Hin k Hk) as (v & _ & Hok & Hv).
    destruct (Hrin k _ Hv) as (b & Hb & Hrk).
    unfold serving_value in Hb. simpl in Hb. inv_bind Hb. injection Hb as <-.
    exists v, x. auto.
  - intros k Hk. split; [apply Hout, Hk|apply Hrout, Hout, Hk].
Qed.

(** * The aggregation theorems *)

(** C8: the totals of the empty list hold every reported key, with an amount
    that is the number 0.00 (the [int] 0 that [round] leaves as it is) and the
    fixed unit of the key. *)
Theorem total_nutrition_empty :
  exists total, calculate_total_nutrition [] = OK total /\
    Forall (fun k => exists a,
              total !! k = Some (a, fixed_unit k) /\
              a = PyInt 0 /\ same_amount a (PyFloat 0)) reported_keys.
Proof.
  destruct (total_nutrition_keys [] ltac:(constructor)) as (T & HT & Hin & _).
  exists T. split; [exact HT|]. apply Forall_reported. intros k Hk.
  destruct (Hin k Hk) as (v & Hv & _ & HTk). injection Hv as <-.
  exists (PyInt 0). split; [exact HTk|]. split; [reflexivity|]. right. split; reflexivity.
Qed.

(** C2: for resolved ingredients and every reported key, the total is the
    sum of the contributions to the key's tagname (an absent one counting as
    0), rounded to two decimals, with the fixed unit of the key. *)
Theorem total_nutrition_is_rounded_sum (ingredients : list Ingredient.t) :
  Forall resolved ingredients ->
  exists total, calculate_total_nutrition ingredients = OK total /\
    Forall (fun k => exists t s a,
              to_tagname !! k = Some t /\
              sum_contributions t ingredients = OK s /\
              total !! k = Some (a, fixed_unit k) /\
              same_amount a (py_round2 s)) reported_keys.
Proof.
  intros Hres.
  destruct (total_nutrition_keys ingredients Hres) as (T & HT & Hin & _).
  exists T. split; [exact HT|]. apply Forall_reported. intros k Hk.
  destruct (Hin k Hk) as (v & Hv & _ & HTk).
  destruct (reported_tables k Hk) as (t & Ht & _).
  destruct (key_fold_related sum_step k ingredients sum_step_related ltac:(eauto) Hres
              (PyInt 0) (PyInt 0) amount_ok_zero amount_ok_zero (same_amount_refl _))
    as (x' & s & Hx' & Hs & _ & _ & Hsame).
  assert (x' = v) as -> by congruence.
  rewrite (key_fold_sum k t ingredients (PyInt 0) Ht Hres) in Hs.
  exists t, s, (py_round2 v). repeat split; auto using same_amount_round2.
Qed.

Lemma scenario_resolved :
  Forall resolved [Scenario.chicken_100g; Scenario.bread_100g; Scenario.bread_2_slices].
Proof.
  repeat constructor; unfold resolved, unique_tagnames; simpl;
    apply (bool_decide_unpack _); vm_compute; exact I.
Defined.

Lemma total_nutrition_is_rounded_sum_witness :
  exists total,
    calculate_total_nutrition
      [Scenario.chicken_100g; Scenario.bread_100g; Scenario.bread_2_slices] = OK total /\
    Forall (fun k => exists t s a,
              to_tagname !! k = Some t /\
              sum_contributions t
                [Scenario.chicken_100g; Scenario.bread_100g; Scenario.bread_2_slices] = OK s /\
              total !! k = Some (a, fixed_unit k) /\
              same_amount a (py_round2 s)) reported_keys.
Proof.
  apply (total_nutrition_is_rounded_sum
           [Scenario.chicken_100g; Scenario.bread_100g; Scenario.bread_2_slices]).
  exact scenario_resolved.
Defined.

(** ** Zero-valued and missing entries *)

Lemma visible_truthy (r r' : result (option float)) :
  visible r = visible r' ->
  (exists e, r = Raise e /\ r' = Raise e) \/
  (exists c c', r = OK c /\ r' = OK c' /\
     ((truthy c = true /\ c' = c) \/ (truthy c = false /\ truthy c' = false))).
Proof.
  destruct r as [c|e], r' as [c'|e']; simpl; intros H; try discriminate.
  - right. exists c, c'. split; [reflexivity|]. split; [reflexivity|].
    injection H as H.
    destruct (truthy c) eqn:Hc, (truthy c') eqn:Hc'; subst; auto; try congruence.
  - left. exists e. injection H as ->. auto.
Qed.

Lemma add_nutrient_visible (i i' : Ingredient.t) (d : gmap string pynum) (n : string) :
  (forall t, visible (Ingredient.calc_nutrient i t) = visible (Ingredient.calc_nutrient i' t)) ->
  add_nutrient i d n = add_nutrient i' d n.
Proof.
  intros H. unfold add_nutrient.
  destruct (dict_getitem to_tagname n) as [t|e]; [simpl|reflexivity].
  destruct (visible_truthy _ _ (H t))
    as [(e & -> & ->)|(c & c' & -> & -> & [[Hc ->]|[Hc Hc']])]; simpl.
  - reflexivity.
  - reflexivity.
  - rewrite Hc, Hc'. reflexivity.
Qed.

Lemma foldM_ext {A B : Type} (f g : B -> A -> result B) (b : B) (l : list A) :
  (forall b a, f b a = g b a) -> foldM f b l = foldM g b l.
Proof.
  intros H. revert b. induction l as [|a l IH]; intros b; [reflexivity|].
  simpl. rewrite H. destruct (g b a); simpl; auto.
Qed.

Lemma foldM_add_ingredient_visible (l l' : list Ingredient.t) (d : gmap string pynum) :
  Forall2 (fun i i' => forall t,
             visible (Ingredient.calc_nutrient i t) = visible (Ingredient.calc_nutrient i' t))
    l l' ->
  foldM add_ingredient d l = foldM add_ingredient d l'.
Proof.
  intros H. revert d. induction H as [|i i' l l' Hi Hl IH]; intros d; [reflexivity|].
  assert (add_ingredient d i = add_ingredient d i') as Heq.
  { unfold add_ingredient. apply foldM_ext. intros b a. apply add_nutrient_visible, Hi. }
  simpl. rewrite Heq. destruct (add_ingredient d i'); simpl; auto.
Qed.

(** C10: a contribution that is exactly zero is falsy, as [None] is, and is
    skipped; the guarded totals are nevertheless those of the accumulation
    that adds every contribution that is not [None]; and the totals cannot
    tell a zero-valued entry from a missing one. *)
Theorem zero_contribution_is_skipped :
  (forall c, is_zero c = true -> truthy (Some c) = truthy None) /\
  (forall ingredients, Forall resolved ingredients ->
     exists total total',
       calculate_total_nutrition ingredients = OK total /\
       calculate_total_nutrition_unguarded ingredients = OK total' /\
       Forall (fun k => exists a a',
                 total !! k = Some (a, fixed_unit k) /\
                 total' !! k = Some (a', fixed_unit k) /\
                 same_amount a a') reported_keys /\
       (forall k, k ∉ reported_keys -> total !! k = None /\ total' !! k = None)) /\
  (forall ingredients ingredients',
     Forall2 (fun i i' => forall t,
                visible (Ingredient.calc_nutrient i t) = visible (Ingredient.calc_nutrient i' t))
       ingredients ingredients' ->
     calculate_total_nutrition ingredients = calculate_total_nutrition ingredients').
Proof.
  split; [|split].
  - intros c Hc. simpl. rewrite Hc. reflexivity.
  - intros ingredients Hres.
    destruct (total_nutrition_keys ingredients Hres) as (T & HT & Hin & Hout).
    destruct (total_nutrition_unguarded_keys ingredients Hres) as (T' & HT' & Hin' & Hout').
    exists T, T'. split; [exact HT|]. split; [exact HT'|]. split.
    + apply Forall_reported. intros k Hk.
      destruct (Hin k Hk) as (v & Hv & _ & HTk).
      destruct (Hin' k Hk) as (v' & Hv' & _ & HTk').
      destruct (reported_tables k Hk) as (t & Ht & _).
      destruct (key_fold_related unguarded_step k ingredients unguarded_step_related
                  ltac:(eauto) Hres (PyInt 0) (PyInt 0) amount_ok_zero amount_ok_zero
                  (same_amount_refl _))
        as (x & y & Hx & Hy & _ & _ & Hsame).
      assert (x = v) as -> by congruence. assert (y = v') as -> by congruence.
      exists (py_round2 v), (py_round2 v'). auto using same_amount_round2.
    + intros k Hk. split; [apply Hout, Hk|apply Hout', Hk].
  - intros l l' H. unfold calculate_total_nutrition.
    rewrite (foldM_add_ingredient_visible l l' total_nutrition0 H). reflexivity.
Qed.

Lemma zero_contribution_is_skipped_witness :
  truthy (Some 0%float) = truthy None /\
  Ingredient.calc_nutrient Scenario.bread_2_slices "SUGAR" = OK (Some 0%float) /\
  Ingredient.calc_nutrient Scenario.bread_2_slices_without_sugar "SUGAR" = OK None /\
  calculate_total_nutrition [Scenario.bread_2_slices] =
    calculate_total_nutrition [Scenario.bread_2_slices_without_sugar].
Proof.
  destruct zero_contribution_is_skipped as (Hskip & _ & Hsame).
  split; [apply Hskip; reflexivity|]. split; [reflexivity|]. split; [reflexivity|].
  apply Hsame. constructor; [|constructor]. intros t.
  unfold Ingredient.calc_nutrient, Ingredient.get_nutrient_by_tagname, nutrition_get. simpl.
  rewrite !filter_cons, !filter_nil. simpl.
  repeat case_decide; subst; try discriminate; reflexivity.
Defined.

(** ** Per-serving values *)

(** C3, as the code has it: for totals of resolved ingredients and a number
    of servings [n >= 1] that converts to a float, every reported key gets
    [round(total[k] / n, 2)] with the unit of [total[k]], and nothing else is
    in the result. *)
Theorem serving_nutrition_spec (ingredients : list Ingredient.t)
    (total : gmap string (pynum * string)) (n : Z) (g : float) :
  Forall resolved ingredients -> calculate_total_nutrition ingredients = OK total ->
  (1 <= n)%Z -> float_of_int n = OK g ->
  exists r, calculate_serving_nutrition total n = OK r /\
    Forall (fun k => exists a u q,
              total !! k = Some (a, u) /\
              py_truediv a (PyInt n) = OK q /\
              r !! k = Some (py_round2 q, u)) reported_keys /\
    (forall k, k ∉ reported_keys -> r !! k = None).
Proof.
  intros Hres Htotal Hn Hg.
  destruct (serving_nutrition_keys ingredients total n g Hres Htotal Hg ltac:(lia))
    as (r & Hr & Hin & Hout).
  exists r. split; [exact Hr|]. split.
  - apply Forall_reported. intros k Hk. destruct (Hin k Hk) as (a & q & _ & Ha & Hq & Hrk).
    exists (py_round2 a), (fixed_unit k), q. auto.
  - intros k Hk. apply Hout, Hk.
Qed.

(** Scenario C: 172.0 kcal and 228.0 kcal, in two servings. *)
Lemma serving_nutrition_spec_witness :
  exists total r,
    calculate_total_nutrition [Scenario.chicken_100g; Scenario.bread_100g] = OK total /\
    total !! "ENERGY" = Some (PyFloat 400, "kcal") /\
    calculate_serving_nutrition total 2 = OK r /\
    r !! "ENERGY" = Some (PyFloat 200, "kcal").
Proof.
  destruct (total_nutrition_keys [Scenario.chicken_100g; Scenario.bread_100g])
    as (total & Htotal & Hin & _).
  { repeat constructor; unfold resolved, unique_tagnames; simpl;
      apply (bool_decide_unpack _); vm_compute; exact I. }
  destruct (serving_nutrition_spec [Scenario.chicken_100g; Scenario.bread_100g] total 2 2)
    as (r & Hr & Hkeys & _).
  - repeat constructor; unfold resolved, unique_tagnames; simpl;
      apply (bool_decide_unpack _); vm_compute; exact I.
  - exact Htotal.
  - lia.
  - reflexivity.
  - exists total, r.
    destruct (Hin "ENERGY") as (v & Hv & _ & HE); [left|].
    vm_compute in Hv. injection Hv as <-.
    apply Forall_cons in Hkeys as [(a & u & q & Ha & Hq & Hrk) _].
    rewrite HE in Ha. injection Ha as <- <-.
    vm_compute in Hq. injection Hq as <-.
    repeat split; assumption.
Defined.

(** C3, as the specification states it, fails: a number of servings too
    large for a float makes the division raise. *)
Lemma serving_nutrition_overflow :
  exists total,
    calculate_total_nutrition [Scenario.chicken_100g] = OK total /\
    (1 <= 2 ^ 1024)%Z /\
    calculate_serving_nutrition total (2 ^ 1024) = Raise OverflowError.
Proof.
  eexists. split; [vm_compute; reflexivity|]. split; [lia|]. vm_compute. reflexivity.
Qed.

(** C5, as the code has it: for totals of resolved ingredients, zero
    servings raise [ZeroDivisionError]; a negative number of servings that
    converts to a float raises nothing and a dictionary is returned. *)
Theorem serving_nutrition_nonpositive (ingredients : list Ingredient.t)
    (total : gmap string (pynum * string)) :
  Forall resolved ingredients -> calculate_total_nutrition ingredients = OK total ->
  calculate_serving_nutrition total 0 = Raise ZeroDivisionError /\
  (forall n g, (n < 0)%Z -> float_of_int n = OK g ->
     exists r, calculate_serving_nutrition total n = OK r /\
       Forall (fun k => exists a u q,
                 total !! k = Some (a, u) /\
                 py_truediv a (PyInt n) = OK q /\
                 r !! k = Some (py_round2 q, u)) reported_keys).
Proof.
  intros Hres Htotal. split.
  - destruct (total_nutrition_keys ingredients Hres) as (T & HT & Hin & _).
    assert (T = total) as -> by congruence.
    apply (dict_comprehension_raise (serving_entry 0) (serving_value 0) (serving_entry_val 0)).
    + intros ->. destruct (Hin "ENERGY") as (v & _ & _ & Hv); [left|].
      rewrite lookup_empty in Hv. discriminate.
    + intros k t _. unfold serving_value. rewrite py_truediv_by_zero. reflexivity.
  - intros n g Hn Hg.
    destruct (serving_nutrition_keys ingredients total n g Hres Htotal Hg ltac:(lia))
      as (r & Hr & Hin & _).
    exists r. split; [exact Hr|]. apply Forall_reported. intros k Hk.
    destruct (Hin k Hk) as (a & q & _ & Ha & Hq & Hrk).
    exists (py_round2 a), (fixed_unit k), q. auto.
Qed.

Lemma serving_nutrition_nonpositive_witness :
  exists total r,
    calculate_total_nutrition [Scenario.chicken_100g] = OK total /\
    calculate_serving_nutrition total 0 = Raise ZeroDivisionError /\
    calculate_serving_nutrition total (-2) = OK r.
Proof.
  destruct (total_nutrition_keys [Scenario.chicken_100g]) as (total & Htotal & _).
  { repeat constructor; unfold resolved, unique_tagnames; simpl;
      apply (bool_decide_unpack _); vm_compute; exact I. }
  destruct (serving_nutrition_nonpositive [Scenario.chicken_100g] total) as [H0 Hneg].
  - repeat constructor; unfold resolved, unique_tagnames; simpl;
      apply (bool_decide_unpack _); vm_compute; exact I.
  - exact Htotal.
  - destruct (Hneg (-2)%Z (-2)%float) as (r & Hr & _); [lia|reflexivity|].
    exists total, r. auto.
Defined.

(** C5, as the specification states it, fails: with -1 servings no error is
    signalled, and a negative amount is returned. *)
Lemma negative_servings_accepted :
  (-1 <= 0)%Z /\
  exists total r,
    calculate_total_nutrition [Scenario.chicken_100g] = OK total /\
    calculate_serving_nutrition total (-1) = OK r /\
    r !! "ENERGY" = Some (PyFloat (-172), "kcal").
Proof.
  split; [lia|]. eexists. eexists.
  split; [vm_compute; reflexivity|]. split; [vm_compute; reflexivity|]. reflexivity.
Qed.

(** C9: with one serving the result equals the totals: the same keys, the
    same units, and amounts that are the same numbers. *)
Theorem serving_one_is_total (ingredients : list Ingredient.t)
    (total : gmap string (pynum * string)) :
  Forall resolved ingredients -> calculate_total_nutrition ingredients = OK total ->
  exists r, calculate_serving_nutrition total 1 = OK r /\
    Forall (fun k => exists a a' u,
              total !! k = Some (a, u) /\ r !! k = Some (a', u) /\ same_amount a' a)
      reported_keys /\
    (forall k, k ∉ reported_keys -> total !! k = None /\ r !! k = None).
Proof.
  intros Hres Htotal.
  destruct (serving_nutrition_keys ingredients total 1 1 Hres Htotal eq_refl ltac:(lia))
    as (r & Hr & Hin & Hout).
  exists r. split; [exact Hr|]. split; [|exact Hout].
  apply Forall_reported. intros k Hk.
  destruct (Hin k Hk) as (a & q & Hok & Ha & Hq & Hrk).
  exists (py_round2 a), (py_round2 q), (fixed_unit k).
  split; [exact Ha|]. split; [exact Hrk|].
  destruct Hok as [->|[f ->]].
  - destruct (py_truediv_int_zero 1 ltac:(lia)) as (z & Hz & Hzero).
    change (py_round2 (PyInt 0)) with (PyInt 0) in Hq.
    rewrite Hz in Hq. injection Hq as <-.
    right. simpl. rewrite round2_zero; auto.
  - change (py_round2 (PyFloat f)) with (PyFloat (Float64.round2 f)) in Hq |- *.
    rewrite (py_truediv_float _ 1 1 eq_refl ltac:(lia)) in Hq.
    injection Hq as <-. simpl. rewrite div_one, round2_idempotent. left. reflexivity.
Qed.

Lemma serving_one_is_total_witness :
  exists total r,
    calculate_total_nutrition [Scenario.chicken_100g; Scenario.bread_2_slices] = OK total /\
    calculate_serving_nutrition total 1 = OK r /\
    Forall (fun k => exists a a' u,
              total !! k = Some (a, u) /\ r !! k = Some (a', u) /\ same_amount a' a)
      reported_keys.
Proof.
  destruct (total_nutrition_keys [Scenario.chicken_100g; Scenario.bread_2_slices])
    as (total & Htotal & _).
  { repeat constructor; unfold resolved, unique_tagnames; simpl;
      apply (bool_decide_unpack _); vm_compute; exact I. }
  destruct (serving_one_is_total [Scenario.chicken_100g; Scenario.bread_2_slices] total)
    as (r & Hr & Hkeys & _).
  - repeat constructor; unfold resolved, unique_tagnames; simpl;
      apply (bool_decide_unpack _); vm_compute; exact I.
  - exact Htotal.
  - exists total, r. auto.
Defined.

(** * Further properties of the resolver and of the aggregation *)

(** ** The contract of the constructor *)

Section ResolverContract.
Variable parse_ingredient : string -> Parsed.t.
Variable match_one_food : string -> option Food.t.
Variable match_one_weight : Food.t -> string -> option FoodWeight.t.
Variable unit_to_grams : gmap string float.

Local Abbreviation init :=
  (Ingredient.init parse_ingredient match_one_food match_one_weight unit_to_grams).
Local Abbreviation get_weight := (Ingredient.get_weight match_one_weight).

(** What [get_weight] returns, case by case. *)
Lemma get_weight_cases (amount : float) (measurement : string) (food : Food.t) :
  get_weight amount measurement food =
    match Food.weight food with
    | [] => Raise (IngredientError (PyFood food)
                     "This food doesn't have any FoodWeight objects.")
    | _ :: _ =>
        match match_one_weight food measurement with
        | None => Raise AttributeError
        | Some e =>
            if is_zero (float_of_Decimal (FoodWeight.amount e)) then Raise ZeroDivisionError
            else OK (float_of_Decimal (FoodWeight.weight e) *
                       (amount / float_of_Decimal (FoodWeight.amount e)))%float
        end
    end.
Proof.
  unfold Ingredient.get_weight. destruct (Food.weight food) as [|w ws]; [reflexivity|].
  simpl. destruct (match_one_weight food measurement) as [e|]; [|reflexivity].
  unfold float_truediv. destruct (is_zero _); reflexivity.
Qed.

(** X1: [Ingredient(to_parse)] returns an ingredient exactly when a food
    is matched and either the parsed unit is a key of the unit table, or no
    unit is parsed, the food has weight entries, one is selected and its
    reference amount is not zero; the ingredient holds the parsed fields,
    the food and the weight of the rule that applied. *)
Theorem init_succeeds_iff (to_parse : string) (ing : Ingredient.t) :
  init to_parse = OK ing <->
  exists food w,
    match_one_food (Parsed.name (parse_ingredient to_parse)) = Some food /\
    ing = Ingredient.mk (Parsed.amount (parse_ingredient to_parse))
            (Parsed.unit (parse_ingredient to_parse))
            (Parsed.measurement (parse_ingredient to_parse))
            (Parsed.name (parse_ingredient to_parse)) food w /\
    ((Parsed.unit (parse_ingredient to_parse) <> "" /\
      exists g, unit_to_grams !! Parsed.unit (parse_ingredient to_parse) = Some g /\
        w = (Parsed.amount (parse_ingredient to_parse) * g)%float)
     \/
     (Parsed.unit (parse_ingredient to_parse) = "" /\ Food.weight food <> [] /\
      exists e,
        match_one_weight food (Parsed.measurement (parse_ingredient to_parse)) = Some e /\
        is_zero (float_of_Decimal (FoodWeight.amount e)) = false /\
        w = (float_of_Decimal (FoodWeight.weight e) *
               (Parsed.amount (parse_ingredient to_parse) /
                  float_of_Decimal (FoodWeight.amount e)))%float)).
Proof.
  unfold Ingredient.init. set (p := parse_ingredient to_parse).
  destruct (match_one_food (Parsed.name p)) as [food|]; cycle 1.
  { split; [discriminate|]. intros (food & w & Hf & _). discriminate. }
  destruct (Parsed.unit p) as [|c u] eqn:Hu; simpl.
  - fold get_weight. rewrite get_weight_cases. split.
    + intros H. inv_bind H. injection H as <-. exists food, x.
      split; [reflexivity|]. split; [reflexivity|]. right. split; [reflexivity|].
      destruct (Food.weight food) as [|w0 ws]; [discriminate|]. split; [discriminate|].
      destruct (match_one_weight food _) as [e|]; [|discriminate].
      destruct (is_zero _) eqn:Hz; [discriminate|]. injection Hx as <-. eauto.
    + intros (food' & w & [= <-] & -> & [[Hne _]|(_ & Hw & e & He & Hz & ->)]).
      { contradiction. }
      destruct (Food.weight food) as [|w0 ws]; [contradiction|].
      rewrite He, Hz. reflexivity.
  - unfold dict_getitem. split.
    + intros H. inv_bind H. injection H as <-. exists food, x.
      split; [reflexivity|]. split; [reflexivity|]. left. split; [discriminate|].
      destruct (unit_to_grams !! String c u) as [g|]; [|discriminate].
      simpl in Hx. injection Hx as <-. eauto.
    + intros (food' & w & [= <-] & -> & [(_ & g & -> & ->)|(Hne & _)]).
      { reflexivity. }
      discriminate.
Qed.

(** X2: the errors of [Ingredient(to_parse)], in the order of the checks:
    no food matched, before anything else; then an unknown unit; with no
    unit, a food without weight entries, then no entry selected, then a
    reference amount of zero. Nothing else is raised. *)
Theorem init_fails_iff (to_parse : string) (err : exn) :
  init to_parse = Raise err <->
  (match_one_food (Parsed.name (parse_ingredient to_parse)) = None /\
   err = IngredientError (PyStr to_parse) "Couldn't match a food object.")
  \/
  exists food, match_one_food (Parsed.name (parse_ingredient to_parse)) = Some food /\
    ((Parsed.unit (parse_ingredient to_parse) <> "" /\
      unit_to_grams !! Parsed.unit (parse_ingredient to_parse) = None /\
      err = KeyError (Parsed.unit (parse_ingredient to_parse)))
     \/
     (Parsed.unit (parse_ingredient to_parse) = "" /\
      ((Food.weight food = [] /\
        err = IngredientError (PyFood food) "This food doesn't have any FoodWeight objects.")
       \/
       (Food.weight food <> [] /\
        match_one_weight food (Parsed.measurement (parse_ingredient to_parse)) = None /\
        err = AttributeError)
       \/
       (Food.weight food <> [] /\
        exists e,
          match_one_weight food (Parsed.measurement (parse_ingredient to_parse)) = Some e /\
          is_zero (float_of_Decimal (FoodWeight.amount e)) = true /\
          err = ZeroDivisionError)))).
Proof.
  unfold Ingredient.init. set (p := parse_ingredient to_parse).
  destruct (match_one_food (Parsed.name p)) as [food|]; cycle 1.
  { split.
    - intros [= <-]. left. auto.
    - intros [[_ ->]|(food & Hf & _)]; [reflexivity|discriminate]. }
  destruct (Parsed.unit p) as [|c u] eqn:Hu; simpl.
  - fold get_weight. rewrite get_weight_cases. split.
    + intros H. right. exists food. split; [reflexivity|]. right. split; [reflexivity|].
      destruct (Food.weight food) as [|w0 ws].
      { left. simpl in H. injection H as <-. auto. }
      right. destruct (match_one_weight food _) as [e|].
      * right. split; [discriminate|]. exists e.
        destruct (is_zero _); [|discriminate]. simpl in H. injection H as <-. auto.
      * left. simpl in H. injection H as <-. split; [discriminate|]. auto.
    + intros [[H _]|(food' & [= <-] & [(Hne & _)|(_ & H)])]; [discriminate|contradiction|].
      destruct H as [[-> ->]|[(Hw & -> & ->)|(Hw & e & -> & -> & ->)]].
      * reflexivity.
      * destruct (Food.weight food); [contradiction|reflexivity].
      * destruct (Food.weight food); [contradiction|reflexivity].
  - unfold dict_getitem. split.
    + intros H. right. exists food. split; [reflexivity|]. left. split; [discriminate|].
      destruct (unit_to_grams !! String c u) as [g|]; [discriminate|].
      simpl in H. injection H as <-. auto.
    + intros [[H _]|(food' & [= <-] & [(_ & -> & ->)|(H & _)])];
        [discriminate|reflexivity|discriminate].
Qed.

End ResolverContract.

(** ** Decimals as floats *)

Section DecimalFloats.
Local Open Scope Z_scope.


Lemma pow10_pos (k : N) : 0 < 10 ^ Z.of_N k.
Proof. apply Z.pow_pos_nonneg; lia. Qed.


(** [float(d) == 1.0] for a decimal one, however many digits it is written
    with. *)
Lemma float_of_Decimal_one (d : Decimal) :
  coeff d = 10 ^ Z.of_N (places d) -> float_of_Decimal d = 1%float.
Proof.
  intros Hc. unfold float_of_Decimal. pose proof (pow10_pos (places d)) as H10.
  apply Prim2SF_inj. rewrite Prim2SF_of_ratio by exact H10.
  rewrite Hc. replace (10 ^ Z.of_N (places d) <? 0) with false by (symmetry; apply Z.ltb_ge; lia).
  rewrite Z.abs_eq by lia.
  change (Prim2SF 1) with (S754_finite false (2 ^ 52)%positive (-52)).
  apply SF_of_ratio_exact; [exact H10|reflexivity|].
  change (Z.max (- -52) 0) with 52. change (Z.max (-52) 0) with 0.
  change (2 ^ 0) with 1. change (Z.pos (2 ^ 52)) with (2 ^ 52). lia.
Qed.

End DecimalFloats.


Section WeightRows.
Variable match_one_weight : Food.t -> string -> option FoodWeight.t.

Local Abbreviation get_weight := (Ingredient.get_weight match_one_weight).


(** X4: with a selected entry whose reference amount is one, the weight is
    the weight of the entry times the parsed amount: the division by 1.0
    changes nothing. *)
Theorem get_weight_reference_one (amount : float) (measurement : string) (food : Food.t)
    (e : FoodWeight.t) :
  Food.weight food <> [] ->
  match_one_weight food measurement = Some e ->
  coeff (FoodWeight.amount e) = (10 ^ Z.of_N (places (FoodWeight.amount e)))%Z ->
  get_weight amount measurement food =
    OK (float_of_Decimal (FoodWeight.weight e) * amount)%float.
Proof.
  intros Hw He Hone. rewrite get_weight_cases, He.
  destruct (Food.weight food) as [|w0 ws]; [contradiction|].
  rewrite (float_of_Decimal_one _ Hone). change (is_zero 1) with false.
  rewrite div_one. reflexivity.
Qed.

End WeightRows.


Lemma get_weight_reference_one_witness :
  Ingredient.get_weight Scenario.match_one_weight 2 "slices" Scenario.bread =
    OK (float_of_Decimal (mkDecimal 280 1) * 2)%float.
Proof.
  apply (get_weight_reference_one Scenario.match_one_weight 2 "slices" Scenario.bread
           Scenario.slice).
  - simpl. discriminate.
  - reflexivity.
  - reflexivity.
Defined.

(** ** [calc_nutrient], by the number of entries *)

Lemma calc_nutrient_cases (self : Ingredient.t) (t : string) :
  Ingredient.calc_nutrient self t =
    match entries self t with
    | [] => OK None
    | [n] => OK (Some (float_of_Decimal (FoodNutrition.value n) / 100 *
                         Ingredient.weight self)%float)
    | _ :: _ :: _ => Raise MultipleObjectsReturned
    end.
Proof.
  unfold Ingredient.calc_nutrient, Ingredient.get_nutrient_by_tagname, nutrition_get, entries.
  destruct (filter _ _) as [|n [|n' l]]; reflexivity.
Qed.

Lemma calc_nutrient_several (self : Ingredient.t) (t : string) :
  (1 < length (entries self t))%nat ->
  Ingredient.calc_nutrient self t = Raise MultipleObjectsReturned.
Proof.
  intros H. rewrite calc_nutrient_cases.
  destruct (entries self t) as [|n [|n' l]]; simpl in H; [lia|lia|reflexivity].
Qed.

Lemma calc_nutrient_at_most_one (self : Ingredient.t) (t : string) :
  (length (entries self t) <= 1)%nat -> exists c, Ingredient.calc_nutrient self t = OK c.
Proof.
  intros H. rewrite calc_nutrient_cases.
  destruct (entries self t) as [|n [|n' l]]; simpl in H; [eauto|eauto|lia].
Qed.

(** ** The accumulator *)

Lemma accumulator_initial : accumulator total_nutrition0.
Proof.
  intros k. destruct (total_nutrition0 !! k) as [v|] eqn:Hk.
  - apply total_nutrition0_lookup in Hk as [Hk ->]. split; [exact Hk|apply amount_ok_zero].
  - intros Hin. rewrite (total_nutrition0_reported k Hin) in Hk. discriminate.
Qed.

Lemma accumulator_lookup (d : gmap string pynum) (k : string) :
  accumulator d -> k ∈ reported_keys -> exists v, d !! k = Some v /\ amount_ok v.
Proof.
  intros Hd Hk. specialize (Hd k). destruct (d !! k) as [v|]; [|contradiction].
  exists v. split; [reflexivity|apply Hd].
Qed.

Lemma accumulator_keys (d : gmap string pynum) (k : string) :
  accumulator d -> k ∈ dict_keys d <-> k ∈ reported_keys.
Proof.
  intros Hd. rewrite dict_keys_elem_of. specialize (Hd k).
  destruct (d !! k) as [v|]; split.
  - intros _. apply Hd.
  - eauto.
  - intros [v Hv]. discriminate.
  - intros Hk. contradiction.
Qed.

Lemma accumulator_insert (d : gmap string pynum) (k : string) (f : float) :
  accumulator d -> k ∈ reported_keys -> accumulator (<[k := PyFloat f]> d).
Proof.
  intros Hd Hk k'. destruct (decide (k = k')) as [<-|Hne].
  - rewrite lookup_insert_eq. split; [exact Hk|apply amount_ok_float].
  - rewrite lookup_insert_ne by exact Hne. apply Hd.
Qed.

Lemma py_add_amount (v : pynum) (c : float) :
  amount_ok v -> exists s, py_add v (PyFloat c) = OK (PyFloat s).
Proof.
  intros [->|[f ->]]; eexists; reflexivity.
Qed.

(** One iteration of the inner loop, on an accumulator. *)
Lemma add_nutrient_accumulator (i : Ingredient.t) (d : gmap string pynum) (n : string) :
  accumulator d -> n ∈ reported_keys ->
  exists t, to_tagname !! n = Some t /\
    match Ingredient.calc_nutrient i t with
    | Raise e => add_nutrient i d n = Raise e
    | OK c => exists d', add_nutrient i d n = OK d' /\ accumulator d' /\
                (truthy c = false -> d' = d)
    end.
Proof.
  intros Hd Hn. destruct (reported_tables n Hn) as (t & Ht & _).
  exists t. split; [exact Ht|].
  unfold add_nutrient, dict_getitem. rewrite Ht. simpl.
  destruct (Ingredient.calc_nutrient i t) as [c|e]; [simpl|reflexivity].
  destruct (truthy c) eqn:Hc; [|exists d; auto].
  destruct c as [c|]; [|discriminate].
  destruct (accumulator_lookup d n Hd Hn) as (v & Hv & Hok). rewrite Hv. simpl.
  destruct (py_add_amount v c Hok) as [s ->]. simpl.
  exists (<[n := PyFloat s]> d). split; [reflexivity|].
  split; [apply accumulator_insert; assumption|discriminate].
Qed.

(** The inner loop over some reported keys: it stops at the first key for
    whose tagname the food has several entries. *)
Lemma add_nutrients_accumulator (i : Ingredient.t) (ks : list string) (d : gmap string pynum) :
  accumulator d -> (forall n, n ∈ ks -> n ∈ reported_keys) ->
  (foldM (add_nutrient i) d ks = Raise MultipleObjectsReturned /\
   exists n t, n ∈ ks /\ to_tagname !! n = Some t /\ (1 < length (entries i t))%nat)
  \/
  (exists d', foldM (add_nutrient i) d ks = OK d' /\ accumulator d' /\
     forall n t, n ∈ ks -> to_tagname !! n = Some t -> (length (entries i t) <= 1)%nat).
Proof.
  revert d. induction ks as [|n ks IH]; intros d Hd Hks.
  - right. exists d. split; [reflexivity|]. split; [exact Hd|].
    intros n t Hn. inversion Hn.
  - destruct (add_nutrient_accumulator i d n Hd) as (t & Ht & Hstep); [apply Hks; left|].
    destruct (le_lt_dec (length (entries i t)) 1) as [Hone|Hmany].
    + destruct (calc_nutrient_at_most_one i t Hone) as [c Hc]. rewrite Hc in Hstep.
      destruct Hstep as (d1 & Hd1 & Hacc & _).
      destruct (IH d1 Hacc) as [[Hr (n' & t' & Hn' & Ht' & Hlen)]|(d' & Hd' & Hacc' & Hall)].
      { intros n' Hn'. apply Hks. right. exact Hn'. }
      * left. split; [simpl; rewrite Hd1; exact Hr|].
        exists n', t'. split; [right; exact Hn'|auto].
      * right. exists d'. split; [simpl; rewrite Hd1; exact Hd'|]. split; [exact Hacc'|].
        intros n' t' Hn' Ht'. apply elem_of_cons in Hn' as [->|Hn'].
        -- assert (t' = t) as -> by congruence. exact Hone.
        -- eapply Hall; eauto.
    + left. rewrite (calc_nutrient_several i t Hmany) in Hstep. split.
      * simpl. rewrite Hstep. reflexivity.
      * exists n, t. split; [left|auto].
Qed.

(** One iteration of the outer loop. *)
Lemma add_ingredient_accumulator (i : Ingredient.t) (d : gmap string pynum) :
  accumulator d ->
  (at_most_one_entry i /\ exists d', add_ingredient d i = OK d' /\ accumulator d') \/
  (~ at_most_one_entry i /\ add_ingredient d i = Raise MultipleObjectsReturned).
Proof.
  intros Hd. unfold add_ingredient.
  destruct (add_nutrients_accumulator i (dict_keys d) d Hd)
    as [[Hr (n & t & Hn & Ht & Hlen)]|(d' & Hd' & Hacc & Hall)].
  - intros n Hn. apply (accumulator_keys d n Hd), Hn.
  - right. split; [|exact Hr]. intros Hone.
    apply (accumulator_keys d n Hd) in Hn. specialize (Hone n t Hn Ht). lia.
  - left. split; [|eauto]. intros k t Hk Ht.
    apply (Hall k t); [apply (accumulator_keys d k Hd), Hk|exact Ht].
Qed.

(** The outer loop. *)
Lemma add_ingredients_accumulator (l : list Ingredient.t) (d : gmap string pynum) :
  accumulator d ->
  (Forall at_most_one_entry l /\
   exists d', foldM add_ingredient d l = OK d' /\ accumulator d') \/
  (Exists (fun i => ~ at_most_one_entry i) l /\
   foldM add_ingredient d l = Raise MultipleObjectsReturned).
Proof.
  revert d. induction l as [|i l IH]; intros d Hd.
  - left. split; [constructor|]. exists d. split; [reflexivity|exact Hd].
  - destruct (add_ingredient_accumulator i d Hd) as [[Hi (d1 & Hd1 & Hacc)]|[Hi Hr]].
    + destruct (IH d1 Hacc) as [[Hl (d' & Hd' & Hacc')]|[Hl Hr]].
      * left. split; [constructor; assumption|].
        exists d'. split; [simpl; rewrite Hd1; exact Hd'|exact Hacc'].
      * right. split; [apply Exists_cons; right; exact Hl|].
        simpl. rewrite Hd1. exact Hr.
    + right. split; [apply Exists_cons; left; exact Hi|]. simpl. rewrite Hr. reflexivity.
Qed.

(** The rounding loop, on an accumulator. *)
Lemma round_accumulator (d : gmap string pynum) :
  accumulator d ->
  exists T : gmap string (pynum * string),
    (rounded ← mapM_result round_entry (dict_items d); OK (list_to_map rounded)) = OK T /\
    forall k, match d !! k with
              | Some v => T !! k = Some (py_round2 v, fixed_unit k)
              | None => T !! k = None
              end.
Proof.
  intros Hd.
  assert (forall k v, d !! k = Some v -> rounded_value k v = OK (py_round2 v, fixed_unit k)) as Hval.
  { intros k v Hv. specialize (Hd k). rewrite Hv in Hd. destruct Hd as [Hk _].
    destruct (reported_tables k Hk) as (t & _ & Hu).
    unfold rounded_value, dict_getitem. rewrite Hu. reflexivity. }
  destruct (dict_comprehension round_entry rounded_value round_entry_val d)
    as (T & HT & Hin & Hout).
  { intros k v Hv. rewrite (Hval k v Hv). eauto. }
  exists T. split; [exact HT|]. intros k. destruct (d !! k) as [v|] eqn:Hv.
  - destruct (Hin k v Hv) as (b & Hb & HTk). rewrite (Hval k v Hv) in Hb. congruence.
  - apply Hout, Hv.
Qed.

(** Key by key, when no food has several entries for a reported tagname. *)
Lemma key_step_at_most_one (i : Ingredient.t) (k : string) (v : pynum) :
  at_most_one_entry i -> k ∈ reported_keys -> amount_ok v ->
  exists t c v', to_tagname !! k = Some t /\ Ingredient.calc_nutrient i t = OK c /\
    key_step guarded_step i k v = OK v' /\ guarded_step v c = OK v' /\ amount_ok v'.
Proof.
  intros Hi Hk Hv. destruct (reported_tables k Hk) as (t & Ht & _).
  destruct (calc_nutrient_at_most_one i t (Hi k t Hk Ht)) as [c Hc].
  assert (exists v', guarded_step v c = OK v' /\ amount_ok v') as (v' & Hv' & Hok).
  { unfold guarded_step. destruct (truthy c); [|eauto].
    destruct c as [c|]; [|eauto].
    destruct (py_add_amount v c Hv) as [s ->]. eauto using amount_ok_float. }
  exists t, c, v'. rewrite (key_step_eq guarded_step i k t v c Ht Hc). auto.
Qed.

Lemma key_fold_at_most_one (k : string) (ingredients : list Ingredient.t) (v : pynum) :
  Forall at_most_one_entry ingredients -> k ∈ reported_keys -> amount_ok v ->
  exists v', key_fold guarded_step k v ingredients = OK v' /\ amount_ok v'.
Proof.
  intros Hall Hk. revert v. induction Hall as [|i l Hi Hl IH]; intros v Hv; [eauto|].
  destruct (key_step_at_most_one i k v Hi Hk Hv) as (t & c & v1 & _ & _ & Hv1 & _ & Hok).
  destruct (IH v1 Hok) as (v' & Hv' & Hok'). exists v'. split; [|exact Hok'].
  rewrite key_fold_cons, Hv1. exact Hv'.
Qed.

(** The two outcomes of [calculate_total_nutrition]. *)
Lemma total_nutrition_cases (ingredients : list Ingredient.t) :
  (Forall at_most_one_entry ingredients /\
   exists T, calculate_total_nutrition ingredients = OK T /\
     (forall k, k ∈ reported_keys ->
        exists v, key_fold guarded_step k (PyInt 0) ingredients = OK v /\ amount_ok v /\
          T !! k = Some (py_round2 v, fixed_unit k)) /\
     (forall k, k ∉ reported_keys -> T !! k = None))
  \/
  (Exists (fun i => ~ at_most_one_entry i) ingredients /\
   calculate_total_nutrition ingredients = Raise MultipleObjectsReturned).
Proof.
  unfold calculate_total_nutrition.
  destruct (add_ingredients_accumulator ingredients total_nutrition0 accumulator_initial)
    as [[Hall (d & Hd & Hacc)]|[Hex Hr]]; [left|right].
  - split; [exact Hall|].
    destruct (foldM_ingredients guarded_step add_nutrient add_nutrient_upd ingredients
                total_nutrition0) as (d0 & Hd0 & Hin & _).
    { intros k v Hv. apply total_nutrition0_lookup in Hv as [Hk ->].
      destruct (key_fold_at_most_one k ingredients (PyInt 0) Hall Hk amount_ok_zero)
        as (v' & Hv' & _). eauto. }
    assert (d0 = d) as -> by (unfold add_ingredient in Hd; congruence).
    rewrite Hd. simpl. destruct (round_accumulator d Hacc) as (T & HT & Hkeys).
    exists T. split; [exact HT|]. split.
    + intros k Hk.
      destruct (Hin k (PyInt 0) (total_nutrition0_reported k Hk)) as (v & Hv & Hdk).
      exists v. split; [exact Hv|]. specialize (Hkeys k). specialize (Hacc k).
      rewrite Hdk in Hkeys, Hacc. split; [apply Hacc|exact Hkeys].
    + intros k Hk. specialize (Hkeys k). specialize (Hacc k).
      destruct (d !! k) as [v|]; [destruct Hacc; contradiction|exact Hkeys].
  - split; [exact Hex|]. rewrite Hr. reflexivity.
Qed.

Lemma Forall_not_Exists (l : list Ingredient.t) :
  Forall at_most_one_entry l -> Exists (fun i => ~ at_most_one_entry i) l -> False.
Proof.
  intros Hall Hex. apply Exists_exists in Hex as (i & Hi & Hno).
  rewrite Forall_forall in Hall. exact (Hno (Hall i Hi)).
Qed.

(** X5: [calculate_total_nutrition] raises exactly when the food of some
    ingredient has several entries for the tagname of a reported key, and
    what it raises then is [MultipleObjectsReturned]; in every other case it
    returns a dictionary. *)
Theorem total_nutrition_raises_iff (ingredients : list Ingredient.t) (err : exn) :
  calculate_total_nutrition ingredients = Raise err <->
  err = MultipleObjectsReturned /\ Exists (fun i => ~ at_most_one_entry i) ingredients.
Proof.
  destruct (total_nutrition_cases ingredients) as [[Hall (T & HT & _)]|[Hex Hr]].
  - rewrite HT. split; [discriminate|]. intros [_ Hex].
    destruct (Forall_not_Exists ingredients Hall Hex).
  - rewrite Hr. split.
    + intros [= <-]. auto.
    + intros [-> _]. reflexivity.
Qed.

Lemma py_round2_fixed (v : pynum) : py_round2 (py_round2 v) = py_round2 v.
Proof. destruct v as [z|f]; simpl; [reflexivity|]. rewrite round2_idempotent. reflexivity. Qed.

(** X6: when no food has several entries for a reported tagname, the totals
    hold the nine reported keys and no other (the three fat fractions that
    [to_tagname] and [units] list are never reported); every unit is the
    fixed unit of its key, and every amount is the [int] 0 or a float that
    [round(_, 2)] leaves as it is. *)
Theorem total_nutrition_shape (ingredients : list Ingredient.t) :
  Forall at_most_one_entry ingredients ->
  exists total, calculate_total_nutrition ingredients = OK total /\
    (forall k, is_Some (total !! k) <-> k ∈ reported_keys) /\
    (forall k a u, total !! k = Some (a, u) ->
       u = fixed_unit k /\ amount_ok a /\ py_round2 a = a) /\
    total !! "FAT_SAT" = None /\ total !! "FAT_POLY" = None /\ total !! "FAT_MONO" = None.
Proof.
  intros Hall.
  destruct (total_nutrition_cases ingredients) as [[_ (T & HT & Hin & Hout)]|[Hex _]];
    [|destruct (Forall_not_Exists ingredients Hall Hex)].
  exists T. split; [exact HT|]. split; [|split].
  - intros k. split.
    + intros [x Hx]. destruct (decide (k ∈ reported_keys)) as [Hk|Hk]; [exact Hk|].
      rewrite (Hout k Hk) in Hx. discriminate.
    + intros Hk. destruct (Hin k Hk) as (v & _ & _ & Hv). eauto.
  - intros k a u Hk. destruct (decide (k ∈ reported_keys)) as [Hr|Hr].
    + destruct (Hin k Hr) as (v & _ & Hok & Hv). rewrite Hv in Hk. injection Hk as <- <-.
      split; [reflexivity|]. split; [apply amount_ok_round2, Hok|apply py_round2_fixed].
    + rewrite (Hout k Hr) in Hk. discriminate.
  - repeat split; apply Hout; intros H; unfold reported_keys in H;
      repeat (apply elem_of_cons in H as [H|H]; [discriminate|]); inversion H.
Qed.

Ltac scenario_at_most_one :=
  let k := fresh "k" in
  let t := fresh "t" in
  let Hk := fresh "Hk" in
  let Ht := fresh "Ht" in
  intros k t Hk Ht; each_reported Hk; vm_compute in Ht; injection Ht as <-;
  vm_compute; lia.

Lemma total_nutrition_shape_witness :
  exists total,
    calculate_total_nutrition [Scenario.chicken_100g; Scenario.bread_2_slices] = OK total /\
    (forall k, is_Some (total !! k) <-> k ∈ reported_keys) /\
    total !! "FAT_SAT" = None.
Proof.
  destruct (total_nutrition_shape [Scenario.chicken_100g; Scenario.bread_2_slices])
    as (total & Ht & Hdom & _ & Hsat & _).
  - constructor; [scenario_at_most_one|].
    constructor; [scenario_at_most_one|constructor].
  - exists total. auto.
Defined.

(** ** One ingredient: the totals and the properties *)

Lemma single_ingredient_key (i : Ingredient.t) (total : gmap string (pynum * string))
    (k t : string) :
  at_most_one_entry i -> calculate_total_nutrition [i] = OK total ->
  k ∈ reported_keys -> to_tagname !! k = Some t ->
  shows total k (Ingredient.calc_nutrient i t).
Proof.
  intros Hi Htotal Hk Ht.
  destruct (total_nutrition_cases [i]) as [[_ (T & HT & Hin & _)]|[_ Hr]]; [|congruence].
  assert (T = total) as -> by congruence.
  destruct (Hin k Hk) as (v & Hv & _ & Hlook).
  destruct (key_step_at_most_one i k (PyInt 0) Hi Hk amount_ok_zero)
    as (t' & c & v1 & Ht' & Hc & Hstep & Hg & _).
  assert (t' = t) as -> by congruence.
  rewrite key_fold_cons, Hstep in Hv. simpl in Hv. injection Hv as ->.
  exists c. split; [exact Hc|]. rewrite Hlook. f_equal. f_equal.
  unfold guarded_step in Hg. destruct c as [c|]; simpl in *.
  - destruct (is_zero c) eqn:Hz; simpl in Hg.
    + injection Hg as <-. reflexivity.
    + change (py_add (PyInt 0) (PyFloat c)) with (OK (PyFloat (0 + c))) in Hg.
      injection Hg as <-. rewrite add_zero_l by (reflexivity || exact Hz). reflexivity.
  - injection Hg as <-. reflexivity.
Qed.

(** X7: the totals of a single ingredient show what its nine properties
    return: under each reported key, [round(p, 2)] for the property [p] the
    key stands for when [p] is truthy, and 0 when it is [None] or zero. *)
Theorem single_ingredient_totals (i : Ingredient.t) :
  at_most_one_entry i ->
  exists total, calculate_total_nutrition [i] = OK total /\
    shows total "ENERGY" (Ingredient.energy i) /\
    shows total "FAT" (Ingredient.fat i) /\
    shows total "PROTEIN" (Ingredient.protein i) /\
    shows total "CARB" (Ingredient.carb i) /\
    shows total "SUGAR" (Ingredient.sugar i) /\
    shows total "CHOLE" (Ingredient.chol i) /\
    shows total "SODIUM" (Ingredient.sodium i) /\
    shows total "POTAS" (Ingredient.potas i) /\
    shows total "FIBER" (Ingredient.fiber i).
Proof.
  intros Hi.
  destruct (total_nutrition_cases [i]) as [[_ (T & HT & _)]|[Hex _]]; cycle 1.
  { apply Exists_cons in Hex as [Hno|Hex]; [contradiction|inversion Hex]. }
  exists T. split; [exact HT|].
  repeat split; apply (single_ingredient_key i T _ _ Hi HT);
    solve [reflexivity | apply (bool_decide_unpack _); vm_compute; exact I].
Qed.

Lemma single_ingredient_totals_witness :
  exists total,
    calculate_total_nutrition [Scenario.chicken_100g] = OK total /\
    shows total "ENERGY" (Ingredient.energy Scenario.chicken_100g) /\
    shows total "FIBER" (Ingredient.fiber Scenario.chicken_100g).
Proof.
  destruct (single_ingredient_totals Scenario.chicken_100g) as (total & Ht & He & H).
  - scenario_at_most_one.
  - exists total. split; [exact Ht|]. split; [exact He|]. apply H.
Defined.

(** ** Ingredients that contribute nothing *)

Lemma foldM_app {A B : Type} (f : B -> A -> result B) (b : B) (l1 l2 : list A) :
  foldM f b (l1 ++ l2) = (b' ← foldM f b l1; foldM f b' l2).
Proof.
  revert b. induction l1 as [|a l1 IH]; intros b; [reflexivity|].
  simpl. destruct (f b a); simpl; [apply IH|reflexivity].
Qed.

Lemma add_ingredients_keeps_accumulator (l : list Ingredient.t) (d d' : gmap string pynum) :
  accumulator d -> foldM add_ingredient d l = OK d' -> accumulator d'.
Proof.
  intros Hd Hl.
  destruct (add_ingredients_accumulator l d Hd) as [[_ (d1 & Hd1 & Hacc)]|[_ Hr]].
  - rewrite Hd1 in Hl. injection Hl as <-. exact Hacc.
  - rewrite Hr in Hl. discriminate.
Qed.

Lemma no_contribution_falsy (i : Ingredient.t) (t : string) :
  visible (Ingredient.calc_nutrient i t) = OK None ->
  exists c, Ingredient.calc_nutrient i t = OK c /\ truthy c = false.
Proof.
  unfold visible. destruct (Ingredient.calc_nutrient i t) as [c|e]; simpl; [|discriminate].
  intros H. exists c. split; [reflexivity|].
  destruct (truthy c) eqn:Hc; [|reflexivity]. injection H as ->. discriminate.
Qed.

Lemma add_nutrients_no_contribution (i : Ingredient.t) (ks : list string)
    (d : gmap string pynum) :
  no_contribution i -> accumulator d -> (forall n, n ∈ ks -> n ∈ reported_keys) ->
  foldM (add_nutrient i) d ks = OK d.
Proof.
  intros Hi Hd. induction ks as [|n ks IH]; intros Hks; [reflexivity|].
  destruct (add_nutrient_accumulator i d n Hd) as (t & Ht & Hstep); [apply Hks; left|].
  destruct (no_contribution_falsy i t) as (c & Hc & Hfalsy).
  { apply (Hi n t); [apply Hks; left|exact Ht]. }
  rewrite Hc in Hstep. destruct Hstep as (d' & Hd' & _ & Hsame).
  rewrite (Hsame Hfalsy) in Hd'. simpl. rewrite Hd'. simpl.
  apply IH. intros n' Hn'. apply Hks. right. exact Hn'.
Qed.

(** X8: an ingredient without a truthy contribution to any reported key
    (every one is [None] or zero) can be taken out of the list, wherever it
    stands: the outcome of [calculate_total_nutrition] is the same. *)
Theorem total_nutrition_skips_no_contribution (l1 l2 : list Ingredient.t)
    (i : Ingredient.t) :
  no_contribution i ->
  calculate_total_nutrition (l1 ++ i :: l2) = calculate_total_nutrition (l1 ++ l2).
Proof.
  intros Hi. unfold calculate_total_nutrition. rewrite !foldM_app.
  destruct (foldM add_ingredient total_nutrition0 l1) as [d|e] eqn:Hl1; [simpl|reflexivity].
  pose proof (add_ingredients_keeps_accumulator l1 _ d accumulator_initial Hl1) as Hd.
  assert (add_ingredient d i = OK d) as ->; [|reflexivity].
  apply add_nutrients_no_contribution; [exact Hi|exact Hd|].
  intros n Hn. apply (accumulator_keys d n Hd), Hn.
Qed.

Lemma total_nutrition_skips_no_contribution_witness :
  calculate_total_nutrition
    [Scenario.chicken_100g; Ingredient.mk 250 "g" "" "water" Scenario.water 250;
     Scenario.bread_100g] =
  calculate_total_nutrition [Scenario.chicken_100g; Scenario.bread_100g].
Proof.
  apply (total_nutrition_skips_no_contribution [Scenario.chicken_100g] [Scenario.bread_100g]
           (Ingredient.mk 250 "g" "" "water" Scenario.water 250)).
  intros k t Hk Ht. each_reported Hk; vm_compute in Ht; injection Ht as <-; reflexivity.
Defined.

(** ** The order of the first two ingredients *)

Lemma SFadd_comm (x y : spec_float) : SFadd prec emax x y = SFadd prec emax y x.
Proof.
  destruct x as [sx|sx| |sx mx ex], y as [sy|sy| |sy my ey]; try reflexivity.
  - destruct sx, sy; reflexivity.
  - destruct sx, sy; reflexivity.
  - unfold SFadd. rewrite (Z.min_comm ex ey), Z.add_comm. reflexivity.
Qed.

Lemma float_add_comm (x y : float) : (x + y)%float = (y + x)%float.
Proof.
  apply Prim2SF_inj. rewrite !FloatAxioms.add_spec. apply SFadd_comm.
Qed.

Lemma guarded_step_from_zero (c : option float) :
  guarded_step (PyInt 0) c =
    OK (match c with
        | Some f => if is_zero f then PyInt 0 else PyFloat f
        | None => PyInt 0
        end).
Proof.
  unfold guarded_step. destruct c as [f|]; simpl; [|reflexivity].
  destruct (is_zero f) eqn:Hz; simpl; [reflexivity|].
  change (py_add (PyInt 0) (PyFloat f)) with (OK (PyFloat (0 + f))).
  rewrite add_zero_l by (reflexivity || exact Hz). reflexivity.
Qed.

Lemma guarded_steps_swap (c1 c2 : option float) :
  (v ← guarded_step (PyInt 0) c1; guarded_step v c2) =
  (v ← guarded_step (PyInt 0) c2; guarded_step v c1).
Proof.
  rewrite !guarded_step_from_zero. simpl.
  destruct c1 as [f1|], c2 as [f2|].
  - destruct (is_zero f1) eqn:H1, (is_zero f2) eqn:H2.
    + rewrite !guarded_step_from_zero, H1, H2. reflexivity.
    + rewrite guarded_step_from_zero, H2. unfold guarded_step. simpl. rewrite H1. reflexivity.
    + rewrite guarded_step_from_zero, H1. unfold guarded_step. simpl. rewrite H2. reflexivity.
    + unfold guarded_step. simpl. rewrite H1, H2. simpl.
      rewrite (float_add_comm f1 f2). reflexivity.
  - rewrite guarded_step_from_zero. reflexivity.
  - rewrite guarded_step_from_zero. reflexivity.
  - reflexivity.
Qed.

Lemma key_fold_swap (k : string) (a b : Ingredient.t) (l : list Ingredient.t) :
  at_most_one_entry a -> at_most_one_entry b -> k ∈ reported_keys ->
  key_fold guarded_step k (PyInt 0) (a :: b :: l) =
  key_fold guarded_step k (PyInt 0) (b :: a :: l).
Proof.
  intros Ha Hb Hk. destruct (reported_tables k Hk) as (t & Ht & _).
  destruct (calc_nutrient_at_most_one a t (Ha k t Hk Ht)) as [ca Hca].
  destruct (calc_nutrient_at_most_one b t (Hb k t Hk Ht)) as [cb Hcb].
  rewrite !key_fold_cons.
  rewrite (key_step_eq guarded_step a k t _ ca Ht Hca).
  rewrite (key_step_eq guarded_step b k t _ cb Ht Hcb).
  pose proof (guarded_steps_swap ca cb) as Hswap.
  destruct (guarded_step (PyInt 0) ca) as [va|e] eqn:Hva;
    [|rewrite guarded_step_from_zero in Hva; discriminate].
  destruct (guarded_step (PyInt 0) cb) as [vb|e] eqn:Hvb;
    [|rewrite guarded_step_from_zero in Hvb; discriminate].
  simpl in *. rewrite !key_fold_cons.
  rewrite (key_step_eq guarded_step b k t va cb Ht Hcb).
  rewrite (key_step_eq guarded_step a k t vb ca Ht Hca).
  rewrite Hswap. reflexivity.
Qed.

(** X9: the outcome of [calculate_total_nutrition] does not depend on the
    order of the first two ingredients: the same dictionary, or the same
    error. *)
Theorem total_nutrition_swap_first_two (a b : Ingredient.t) (l : list Ingredient.t) :
  calculate_total_nutrition (a :: b :: l) = calculate_total_nutrition (b :: a :: l).
Proof.
  destruct (total_nutrition_cases (a :: b :: l)) as [[Hall (T & HT & Hin & Hout)]|[Hex Hr]];
    destruct (total_nutrition_cases (b :: a :: l))
      as [[Hall' (T' & HT' & Hin' & Hout')]|[Hex' Hr']].
  - rewrite HT, HT'. f_equal. apply map_eq. intros k.
    destruct (decide (k ∈ reported_keys)) as [Hk|Hk].
    + destruct (Hin k Hk) as (v & Hv & _ & ->). destruct (Hin' k Hk) as (v' & Hv' & _ & ->).
      apply Forall_cons in Hall as [Ha Hall]. apply Forall_cons in Hall as [Hb _].
      rewrite (key_fold_swap k a b l Ha Hb Hk) in Hv. congruence.
    + rewrite (Hout k Hk), (Hout' k Hk). reflexivity.
  - exfalso. apply (Forall_not_Exists (a :: b :: l) Hall).
    apply Exists_cons in Hex' as [H|Hex'].
    + apply Exists_cons. right. apply Exists_cons. left. exact H.
    + apply Exists_cons in Hex' as [H|Hex']; [apply Exists_cons; left; exact H|].
      apply Exists_cons. right. apply Exists_cons. right. exact Hex'.
  - exfalso. apply (Forall_not_Exists (b :: a :: l) Hall').
    apply Exists_cons in Hex as [H|Hex].
    + apply Exists_cons. right. apply Exists_cons. left. exact H.
    + apply Exists_cons in Hex as [H|Hex]; [apply Exists_cons; left; exact H|].
      apply Exists_cons. right. apply Exists_cons. right. exact Hex.
  - rewrite Hr, Hr'. reflexivity.
Qed.

(** ** [calculate_serving_nutrition] on any dictionary *)

Lemma mapM_result_elem_of {A B : Type} (f : A -> result B) (l : list A) (l' : list B) :
  mapM_result f l = OK l' -> forall a, a ∈ l -> exists b, f a = OK b.
Proof.
  revert l'. induction l as [|x l IH]; intros l' H a Ha; [inversion Ha|].
  simpl in H. inv_bind H. inv_bind H.
  apply elem_of_cons in Ha as [->|Ha]; [eauto|].
  eapply IH; eauto.
Qed.

(** A true division that returns, returns a float. *)
Lemma py_truediv_OK (x y q : pynum) :
  py_truediv x y = OK q -> exists f, q = PyFloat f.
Proof.
  unfold py_truediv. intros H.
  destruct x as [a|f], y as [b|g].
  - destruct (b =? 0)%Z; [discriminate|]. destruct (is_infinity _); [discriminate|].
    injection H as <-. eauto.
  - inv_bind H. inv_bind H. inv_bind H. injection H as <-. eauto.
  - inv_bind H. inv_bind H. inv_bind H. injection H as <-. eauto.
  - inv_bind H. inv_bind H. inv_bind H. injection H as <-. eauto.
Qed.

Lemma serving_nutrition_entries (total r : gmap string (pynum * string)) (servings : Z) :
  calculate_serving_nutrition total servings = OK r ->
  forall k, match total !! k with
            | Some t => exists q, py_truediv t.1 (PyInt servings) = OK (PyFloat q) /\
                          r !! k = Some (PyFloat (Float64.round2 q), t.2)
            | None => r !! k = None
            end.
Proof.
  unfold calculate_serving_nutrition. intros H.
  assert (forall k t, total !! k = Some t -> exists b, serving_value servings k t = OK b)
    as Hok.
  { intros k t Hk. inv_bind H.
    destruct (mapM_result_elem_of _ _ _ Hx (k, t)) as [b Hb].
    { apply elem_of_map_to_list. exact Hk. }
    rewrite serving_entry_val in Hb. simpl in Hb. inv_bind Hb. eauto. }
  destruct (dict_comprehension (serving_entry servings) (serving_value servings)
              (serving_entry_val servings) total Hok) as (d' & Hd' & Hin & Hout).
  assert (d' = r) as -> by congruence.
  intros k. destruct (total !! k) as [t|] eqn:Hk; [|apply Hout, Hk].
  destruct (Hin k t Hk) as (b & Hb & Hrk). unfold serving_value in Hb. inv_bind Hb.
  injection Hb as <-. destruct (py_truediv_OK _ _ _ Hx) as [q ->].
  exists q. split; [exact Hx|exact Hrk].
Qed.

Lemma serving_nutrition_build (total r : gmap string (pynum * string)) (servings : Z) :
  (forall k, match total !! k with
             | Some t => exists q, py_truediv t.1 (PyInt servings) = OK (PyFloat q) /\
                           r !! k = Some (PyFloat (Float64.round2 q), t.2)
             | None => r !! k = None
             end) ->
  calculate_serving_nutrition total servings = OK r.
Proof.
  unfold calculate_serving_nutrition. intros H.
  destruct (dict_comprehension (serving_entry servings) (serving_value servings)
              (serving_entry_val servings) total) as (d' & Hd' & Hin & Hout).
  { intros k t Hk. specialize (H k). rewrite Hk in H. destruct H as (q & Hq & _).
    unfold serving_value. rewrite Hq. simpl. eauto. }
  rewrite Hd'. f_equal. apply map_eq. intros k. specialize (H k).
  destruct (total !! k) as [t|] eqn:Hk.
  - destruct H as (q & Hq & ->). destruct (Hin k t Hk) as (b & Hb & ->).
    unfold serving_value in Hb. rewrite Hq in Hb. simpl in Hb. congruence.
  - rewrite H. apply Hout, Hk.
Qed.

(** X10: on any dictionary of amounts and units,
    [calculate_serving_nutrition] returns [r] exactly when every division
    [amount / servings] returns, and [r] has the keys of the argument, each
    with the float [round(amount / servings, 2)] and the unit it had. *)
Theorem serving_nutrition_iff (total r : gmap string (pynum * string)) (servings : Z) :
  calculate_serving_nutrition total servings = OK r <->
  forall k, match total !! k with
            | Some t => exists q, py_truediv t.1 (PyInt servings) = OK (PyFloat q) /\
                          r !! k = Some (PyFloat (Float64.round2 q), t.2)
            | None => r !! k = None
            end.
Proof.
  split; [apply serving_nutrition_entries|apply serving_nutrition_build].
Qed.

(** X11: with zero servings, every dictionary that is not empty makes
    [calculate_serving_nutrition] raise [ZeroDivisionError]; the empty
    dictionary is returned as it is, for zero as for any number of
    servings. *)
Theorem serving_nutrition_zero (total : gmap string (pynum * string)) :
  calculate_serving_nutrition total 0 =
    (if decide (total = ∅) then OK ∅ else Raise ZeroDivisionError) /\
  forall servings, calculate_serving_nutrition ∅ servings = OK ∅.
Proof.
  assert (forall servings, calculate_serving_nutrition ∅ servings = OK ∅) as Hempty.
  { intros servings. unfold calculate_serving_nutrition, dict_items.
    rewrite map_to_list_empty. reflexivity. }
  split; [|exact Hempty].
  destruct (decide (total = ∅)) as [->|Hne]; [apply Hempty|].
  apply (dict_comprehension_raise (serving_entry 0) (serving_value 0) (serving_entry_val 0));
    [exact Hne|].
  intros k t _. unfold serving_value. rewrite py_truediv_by_zero. reflexivity.
Qed.

(** ** Negative servings *)

Lemma SF_of_ratio_negb (neg : bool) (n d : Z) :
  Float64.SF_of_ratio (negb neg) n d = SFopp (Float64.SF_of_ratio neg n d).
Proof.
  unfold Float64.SF_of_ratio. destruct (n <=? 0)%Z; [reflexivity|].
  destruct (Float64.mantissa n d (Float64.exponent n d) =? 2 ^ prec)%Z.
  - destruct (2 ^ (prec - 1))%Z; try reflexivity. destruct (_ <=? _)%Z; reflexivity.
  - destruct (Float64.mantissa n d (Float64.exponent n d)); try reflexivity.
    destruct (_ <=? _)%Z; reflexivity.
Qed.

Lemma of_ratio_negb (neg : bool) (n d : Z) :
  (0 < d)%Z -> Float64.of_ratio (negb neg) n d = (- Float64.of_ratio neg n d)%float.
Proof.
  intros Hd. apply Prim2SF_inj.
  rewrite FloatAxioms.opp_spec, !Prim2SF_of_ratio by exact Hd. apply SF_of_ratio_negb.
Qed.

Lemma is_zero_opp (x : float) : is_zero (- x) = is_zero x.
Proof.
  apply eq_true_iff_eq. rewrite !is_zero_SF, FloatAxioms.opp_spec.
  destruct (Prim2SF x) as [s|s| |s m e]; simpl; split; intros [s' H]; try discriminate; eauto.
Qed.

Lemma is_infinity_opp (x : float) : is_infinity (- x) = is_infinity x.
Proof.
  apply eq_true_iff_eq. rewrite !is_infinity_SF, FloatAxioms.opp_spec.
  destruct (Prim2SF x) as [s|s| |s m e]; simpl; split; intros [s' H]; try discriminate; eauto.
Qed.

Lemma binary_round_aux_negb (s : bool) (m e : Z) (l : location) :
  binary_round_aux prec emax (negb s) m e l = SFopp (binary_round_aux prec emax s m e l).
Proof.
  unfold binary_round_aux.
  destruct (shr_fexp prec emax m e l) as [mrs' e'].
  destruct (shr_fexp prec emax _ e' loc_Exact) as [mrs'' e''].
  destruct (shr_m mrs''); try reflexivity.
  destruct (_ <=? _)%Z; reflexivity.
Qed.

Lemma xorb_negb_r (a b : bool) : xorb a (negb b) = negb (xorb a b).
Proof. destruct a, b; reflexivity. Qed.

Lemma SFdiv_opp_r (x y : spec_float) :
  SFdiv prec emax x (SFopp y) = SFopp (SFdiv prec emax x y).
Proof.
  destruct x as [sx|sx| |sx mx ex], y as [sy|sy| |sy my ey]; simpl;
    rewrite ?xorb_negb_r; try reflexivity.
  destruct (SFdiv_core_binary prec emax (Z.pos mx) ex (Z.pos my) ey) as [[mz ez] lz].
  apply binary_round_aux_negb.
Qed.

Lemma div_opp_r (x y : float) : (x / - y)%float = (- (x / y))%float.
Proof.
  apply Prim2SF_inj.
  rewrite FloatAxioms.opp_spec, !FloatAxioms.div_spec, FloatAxioms.opp_spec.
  apply SFdiv_opp_r.
Qed.

Lemma round2_opp (x : float) : Float64.round2 (- x) = (- Float64.round2 x)%float.
Proof.
  unfold Float64.round2. rewrite FloatAxioms.opp_spec.
  destruct (Prim2SF x) as [s|s| |s m e]; simpl; try reflexivity.
  apply of_ratio_negb. lia.
Qed.

Lemma of_Z_opp (n : Z) : n <> 0%Z -> Float64.of_Z (- n) = (- Float64.of_Z n)%float.
Proof.
  intros Hn. unfold Float64.of_Z. rewrite Z.abs_opp, <- of_ratio_negb by lia.
  f_equal. destruct (Z.ltb_spec n 0%Z), (Z.ltb_spec (- n) 0%Z); simpl; try reflexivity; lia.
Qed.

(** Dividing by [-n] instead of [n]: the same error, or the opposite
    quotient. *)
Lemma py_truediv_opp (x : pynum) (n : Z) :
  py_truediv x (PyInt (- n)) =
    match py_truediv x (PyInt n) with
    | OK q => OK (py_neg q)
    | Raise e => Raise e
    end.
Proof.
  destruct (Z.eq_dec n 0%Z) as [->|Hn]; [rewrite !py_truediv_by_zero; reflexivity|].
  destruct x as [a|f]; unfold py_truediv.
  - rewrite (proj2 (Z.eqb_neq n 0%Z) Hn), (proj2 (Z.eqb_neq (- n) 0%Z)) by lia.
    rewrite Z.abs_opp.
    replace (- n <? 0)%Z with (negb (n <? 0)%Z)
      by (destruct (Z.ltb_spec n 0%Z), (Z.ltb_spec (- n) 0%Z); simpl; try reflexivity; lia).
    rewrite xorb_negb_r, of_ratio_negb by lia. rewrite is_infinity_opp.
    destruct (is_infinity _); reflexivity.
  - simpl. unfold float_of_int. rewrite (of_Z_opp n Hn), is_infinity_opp.
    destruct (is_infinity (Float64.of_Z n)); [reflexivity|]. simpl.
    unfold float_truediv. rewrite is_zero_opp.
    destruct (is_zero (Float64.of_Z n)); [reflexivity|]. simpl.
    rewrite div_opp_r. reflexivity.
Qed.

Lemma py_round2_neg (q : pynum) : py_round2 (py_neg q) = py_neg (py_round2 q).
Proof. destruct q as [z|f]; simpl; [reflexivity|]. rewrite round2_opp. reflexivity. Qed.

Lemma serving_entry_opp (n : Z) (kt : string * (pynum * string)) :
  serving_entry (- n) kt =
    match serving_entry n kt with
    | OK b => OK (prod_map id negated b)
    | Raise e => Raise e
    end.
Proof.
  unfold serving_entry. rewrite py_truediv_opp.
  destruct (py_truediv kt.2.1 (PyInt n)) as [q|e]; simpl; [|reflexivity].
  rewrite py_round2_neg. reflexivity.
Qed.

Lemma mapM_result_ext_map {A B : Type} (f f' : A -> result B) (g : B -> B) (l : list A) :
  (forall a, f' a = match f a with OK b => OK (g b) | Raise e => Raise e end) ->
  mapM_result f' l =
    match mapM_result f l with
    | OK bs => OK (g <$> bs)
    | Raise e => Raise e
    end.
Proof.
  intros H. induction l as [|a l IH]; [reflexivity|].
  simpl. rewrite H, IH. destruct (f a) as [b|e]; simpl; [|reflexivity].
  destruct (mapM_result f l); reflexivity.
Qed.

(** X12: with [-n] servings instead of [n], [calculate_serving_nutrition]
    raises the same error or returns the same dictionary with every amount
    negated: a negative number of servings is as good as its absolute
    value, up to the sign. *)
Theorem serving_nutrition_negated (total : gmap string (pynum * string)) (n : Z) :
  calculate_serving_nutrition total (- n) =
    match calculate_serving_nutrition total n with
    | OK r => OK (negated <$> r)
    | Raise e => Raise e
    end.
Proof.
  unfold calculate_serving_nutrition.
  rewrite (mapM_result_ext_map (serving_entry n) (serving_entry (- n)) (prod_map id negated))
    by apply serving_entry_opp.
  destruct (mapM_result (serving_entry n) (dict_items total)) as [bs|e]; simpl; [|reflexivity].
  rewrite list_to_map_fmap. reflexivity.
Qed.

(** ** One serving, again *)

(** X13: what [calculate_serving_nutrition] returns is a fixed point of the
    division by one serving: every amount is a float that is already
    rounded, and dividing it by 1 and rounding again gives it back. *)
Theorem serving_nutrition_then_one (total r : gmap string (pynum * string)) (servings : Z) :
  calculate_serving_nutrition total servings = OK r ->
  calculate_serving_nutrition r 1 = OK r.
Proof.
  intros H. pose proof (serving_nutrition_entries total r servings H) as Hr.
  apply serving_nutrition_build. intros k. specialize (Hr k).
  destruct (r !! k) as [t'|] eqn:Hk; [|reflexivity].
  destruct (total !! k) as [t|]; [|discriminate].
  destruct Hr as (q & _ & [= ->]). exists (Float64.round2 q). split.
  - cbn [fst]. rewrite (py_truediv_float _ 1 1 eq_refl ltac:(lia)), div_one. reflexivity.
  - cbn [snd]. rewrite round2_idempotent. reflexivity.
Qed.

Lemma serving_nutrition_then_one_witness :
  exists r,
    calculate_serving_nutrition {["ENERGY" := (PyFloat 345, "kcal")]} 7 = OK r /\
    calculate_serving_nutrition r 1 = OK r.
Proof.
  eexists. split.
  - vm_compute. reflexivity.
  - apply (serving_nutrition_then_one {["ENERGY" := (PyFloat 345, "kcal")]} _ 7).
    vm_compute. reflexivity.
Defined.

(** ** The lookup of a nutrient *)

Lemma entries_elem_of (self : Ingredient.t) (t : string) (n : FoodNutrition.t) :
  n ∈ entries self t <->
  n ∈ Food.nutrition (Ingredient.matched_food self) /\ FoodNutrition.tagname n = t.
Proof. unfold entries. rewrite list_elem_of_filter. tauto. Qed.

Lemma get_nutrient_by_tagname_cases (self : Ingredient.t) (t : string) :
  Ingredient.get_nutrient_by_tagname self t =
    match entries self t with
    | [] => OK None
    | [n] => OK (Some n)
    | _ :: _ :: _ => Raise MultipleObjectsReturned
    end.
Proof.
  unfold Ingredient.get_nutrient_by_tagname, nutrition_get, entries.
  destruct (filter _ _) as [|n [|n' l]]; reflexivity.
Qed.

(** X14: [get_nutrient_by_tagname] returns [None] exactly when the food has
    no entry with the tagname; an entry it returns is the only entry of the
    food with the tagname; and it raises exactly when the food has several,
    [MultipleObjectsReturned] then: [DoesNotExist] never escapes. *)
Theorem get_nutrient_by_tagname_contract (self : Ingredient.t) (t : string) :
  (Ingredient.get_nutrient_by_tagname self t = OK None <->
     forall n, n ∈ Food.nutrition (Ingredient.matched_food self) ->
       FoodNutrition.tagname n <> t) /\
  (forall n, Ingredient.get_nutrient_by_tagname self t = OK (Some n) <->
     entries self t = [n]) /\
  (forall n, entries self t = [n] ->
     n ∈ Food.nutrition (Ingredient.matched_food self) /\ FoodNutrition.tagname n = t /\
     forall n', n' ∈ Food.nutrition (Ingredient.matched_food self) ->
       FoodNutrition.tagname n' = t -> n' = n) /\
  (forall e, Ingredient.get_nutrient_by_tagname self t = Raise e <->
     e = MultipleObjectsReturned /\ (1 < length (entries self t))%nat).
Proof.
  rewrite get_nutrient_by_tagname_cases. split; [|split; [|split]].
  - split.
    + intros H n Hn Ht.
      assert (n ∈ entries self t) as Hin by (apply entries_elem_of; auto).
      destruct (entries self t) as [|n0 [|n1 l]]; [inversion Hin|discriminate|discriminate].
    + intros H. destruct (entries self t) as [|n0 l] eqn:He; [reflexivity|exfalso].
      assert (n0 ∈ entries self t) as Hin by (rewrite He; left).
      apply entries_elem_of in Hin as [Hin Ht]. exact (H n0 Hin Ht).
  - intros n. destruct (entries self t) as [|n0 [|n1 l]]; split; congruence.
  - intros n He.
    assert (n ∈ entries self t) as Hin by (rewrite He; left).
    apply entries_elem_of in Hin as [Hin Ht]. split; [exact Hin|]. split; [exact Ht|].
    intros n' Hn' Ht'. assert (n' ∈ entries self t) as Hin' by (apply entries_elem_of; auto).
    rewrite He in Hin'. apply list_elem_of_singleton in Hin'. exact Hin'.
  - intros e. destruct (entries self t) as [|n0 [|n1 l]]; simpl; split.
    + discriminate.
    + intros [_ H]. lia.
    + discriminate.
    + intros [_ H]. lia.
    + intros [= <-]. split; [reflexivity|lia].
    + intros [-> _]. reflexivity.
Qed.

Lemma get_nutrient_by_tagname_contract_witness :
  Ingredient.get_nutrient_by_tagname Scenario.chicken_100g "FIBTG" = OK None /\
  FoodNutrition.tagname (FoodNutrition.mk "FAT" (mkDecimal 925 2)) = "FAT".
Proof.
  destruct (get_nutrient_by_tagname_contract Scenario.chicken_100g "FIBTG") as (Hnone & _).
  destruct (get_nutrient_by_tagname_contract Scenario.chicken_100g "FAT") as (_ & _ & Hone & _).
  split.
  - apply Hnone. simpl. intros n Hn.
    repeat (apply elem_of_cons in Hn as [->|Hn]; [simpl; discriminate|]).
    inversion Hn.
  - apply (Hone (FoodNutrition.mk "FAT" (mkDecimal 925 2))). reflexivity.
Defined.

(** ** What the totals read of an ingredient *)

Lemma foldM_ext_in {A B : Type} (f g : B -> A -> result B) (b : B) (l : list A) :
  (forall b a, a ∈ l -> f b a = g b a) -> foldM f b l = foldM g b l.
Proof.
  revert b. induction l as [|a l IH]; intros b H; [reflexivity|].
  simpl. rewrite (H b a) by left. destruct (g b a); simpl; [|reflexivity].
  apply IH. intros b' a' Ha'. apply H. right. exact Ha'.
Qed.

Lemma add_nutrient_same_reported (i i' : Ingredient.t) (d : gmap string pynum) (n : string) :
  same_reported i i' -> n ∈ reported_keys -> add_nutrient i d n = add_nutrient i' d n.
Proof.
  intros H Hn. destruct (reported_tables n Hn) as (t & Ht & _).
  unfold add_nutrient, dict_getitem. rewrite Ht. simpl.
  destruct (visible_truthy _ _ (H n t Hn Ht))
    as [(e & -> & ->)|(c & c' & -> & -> & [[Hc ->]|[Hc Hc']])]; simpl.
  - reflexivity.
  - reflexivity.
  - rewrite Hc, Hc'. reflexivity.
Qed.

Lemma add_ingredient_same_reported (i i' : Ingredient.t) (d : gmap string pynum) :
  accumulator d -> same_reported i i' -> add_ingredient d i = add_ingredient d i'.
Proof.
  intros Hd H. unfold add_ingredient. apply foldM_ext_in.
  intros b n Hn. apply add_nutrient_same_reported; [exact H|].
  apply (accumulator_keys d n Hd), Hn.
Qed.

Lemma add_ingredients_same_reported (l l' : list Ingredient.t) (d : gmap string pynum) :
  accumulator d -> Forall2 same_reported l l' ->
  foldM add_ingredient d l = foldM add_ingredient d l'.
Proof.
  intros Hd H. revert d Hd. induction H as [|i i' l l' Hi Hl IH]; intros d Hd; [reflexivity|].
  simpl. rewrite <- (add_ingredient_same_reported i i' d Hd Hi).
  destruct (add_ingredient d i) as [d1|e] eqn:Hd1; simpl; [|reflexivity].
  apply IH. apply (add_ingredients_keeps_accumulator [i] d d1 Hd).
  simpl. rewrite Hd1. reflexivity.
Qed.

(** X15: the totals read nothing of an ingredient but its contributions to
    the nine reported tagnames, and of these only whether each is truthy and,
    if so, its value: two lists of ingredients that agree on that, position by
    position, have the same outcome, whatever their amounts, units, names and
    other nutrient entries are. *)
Theorem total_nutrition_reads_reported_only (l l' : list Ingredient.t) :
  Forall2 same_reported l l' ->
  calculate_total_nutrition l = calculate_total_nutrition l'.
Proof.
  intros H. unfold calculate_total_nutrition.
  rewrite (add_ingredients_same_reported l l' total_nutrition0 accumulator_initial H).
  reflexivity.
Qed.

Lemma total_nutrition_reads_reported_only_witness :
  calculate_total_nutrition [Scenario.chicken_100g] =
  calculate_total_nutrition
    [Ingredient.mk 1 "kg" "" "chicken"
       (Food.mk "Chicken" []
          (FoodNutrition.mk "FASAT" (mkDecimal 266 2) ::
           FoodNutrition.mk "FASAT" (mkDecimal 266 2) ::
           Food.nutrition Scenario.chicken))
       100].
Proof.
  apply total_nutrition_reads_reported_only. constructor; [|constructor].
  intros k t Hk Ht. each_reported Hk; vm_compute in Ht; injection Ht as <-; reflexivity.
Defined.
